(** * A shallow embedding of the NOAA weather service

    The service answers [GET /weather?latitude=..&longitude=..] by three
    sequential calls to the NOAA API, converts the reading from Celsius to
    Fahrenheit and classifies it as hot, cold or moderate.

    Layout, following the Go packages:
    - [F64]         IEEE-754 binary64, on the Standard Library's [spec_float];
    - [strconv]     [Itoa] and [FormatFloat] with format ['f'];
    - [logger]      the structured log, as a list of lines;
    - [httpclient]  [MakeRequest];
    - [weather]     [getGridpoint], [determineStatus], [GetWeatherFromNOAA];
    - [api]         [WeatherHandler];
    - [Mock]        a canned upstream used for the concrete runs.

    What lies outside the process (the network, the JSON decoder, the float
    parser) is gathered in the classes [Platform] and [JSONDecode]; every
    general theorem holds for every platform.

    Conventions:
    - an [error] is its message; a function returning [(T, error)] returns a
      [result T]; a panic is an [outcome] of its own, so that "does not
      crash" is a statement;
    - the state threaded through the code is the network, the list of
      requests sent to it, and the lines written by the default logger
      (without their timestamps): an entry, or the fallback line the logger
      writes when an entry cannot be marshalled;
    - the handler's reply records the call it makes on its
      [http.ResponseWriter], [http.Error(w, msg, code)] or the encoding of a
      [WeatherResponse] after the headers are set, not the bytes the library
      then writes;
    - closing a response body has no effect on this state and is left out. *)

From stdpp Require Import gmap strings.
From Stdlib Require Import ZArith String Ascii List Lia DecimalString.
From Stdlib Require Import Floats.SpecFloat.
Import ListNotations.

Local Open Scope string_scope.
Local Open Scope list_scope.

(** ** binary64 *)

Module F64.

Definition prec : Z := 53.
Definition emax : Z := 1024.

Definition float64 : Type := spec_float.

Definition nan : float64 := S754_nan.
Definition inf (neg : bool) : float64 := S754_infinity neg.

(** An integer constant converted to float64 (round to nearest even; the
    constants of this program are all exact). *)
Definition of_Z (z : Z) : float64 := binary_normalize prec emax z 0 false.

(** The float64 nearest to the fraction [n / d]: how a decimal constant
    such as 75.1 = 751/10 is converted. *)
Definition of_ratio (n : Z) (d : positive) : float64 :=
  match n with
  | Z0 => S754_zero false
  | _ =>
    let '(q, e, l) := SFdiv_core_binary prec emax (Z.abs n) 0 (Zpos d) 0 in
    binary_round_aux prec emax (n <? 0)%Z q e l
  end.

Definition add : float64 -> float64 -> float64 := SFadd prec emax.
Definition mul : float64 -> float64 -> float64 := SFmul prec emax.
Definition div : float64 -> float64 -> float64 := SFdiv prec emax.

(** Go's [<], [>], [<=] on float64: false as soon as one side is NaN. *)
Definition ltb (x y : float64) : bool := SFltb x y.
Definition gtb (x y : float64) : bool := SFltb y x.
Definition leb (x y : float64) : bool := SFleb x y.

End F64.

Abbreviation float64 := F64.float64.

(** ** strconv *)

Module strconv.

(** [strconv.Itoa], also the [%d] verb of [fmt]. *)
Definition Itoa (z : Z) : string := NilZero.string_of_int (Z.to_int z).

Definition utoa (n : N) : string := NilZero.string_of_uint (N.to_uint n).

(** [n / d] rounded to the nearest integer, ties to even. *)
Definition round_half_even (n d : N) : N :=
  let q := (n / d)%N in
  let r := (n mod d)%N in
  match (2 * r ?= d)%N with
  | Lt => q
  | Gt => (q + 1)%N
  | Eq => if N.even q then q else (q + 1)%N
  end.

(** The magnitude [m * 2^e], times [10^digits], rounded to an integer. *)
Definition scaled (m : positive) (e : Z) (digits : nat) : N :=
  let p := (Npos m * 10 ^ N.of_nat digits)%N in
  match e with
  | Zneg k => round_half_even p (2 ^ Npos k)
  | _ => (p * 2 ^ Z.to_N e)%N
  end.

Fixpoint zeros (n : nat) : string :=
  match n with O => "" | S n' => String "0" (zeros n') end.

(** The decimal digits of [n] with a point before the last [digits] of
    them, zero-padded so that at least one digit precedes the point. *)
Definition fixed (n : N) (digits : nat) : string :=
  let s := utoa n in
  let s := zeros (S digits - String.length s) +:+ s in
  let k := (String.length s - digits)%nat in
  match digits with
  | O => s
  | _ => substring 0 k s +:+ "." +:+ substring k digits s
  end.

(** [strconv.FormatFloat(f, 'f', digits, 64)]: the exact value of [f]
    rounded half-to-even to [digits] decimals. *)
Definition FormatFloat (f : float64) (digits : nat) : string :=
  match f with
  | S754_nan => "NaN"
  | S754_infinity false => "+Inf"
  | S754_infinity true => "-Inf"
  | S754_zero s => (if s then "-" else "") +:+ fixed 0 digits
  | S754_finite s m e =>
    (if s then "-" else "") +:+ fixed (scaled m e digits) digits
  end.

End strconv.

(** ** Values of the Go runtime *)

(** An [error], represented by its [Error()] text; [fmt.Errorf("..: %w", err)]
    is then concatenation. *)
Definition error : Type := string.

(** The pair [(T, error)] a Go function returns: a value when [err == nil]. *)
Inductive result (A : Type) : Type :=
  | Success (a : A)
  | Failure (err : error).
Arguments Success {A} a.
Arguments Failure {A} err.

(** A call either returns or panics (index out of range, nil dereference). *)
Inductive outcome (A : Type) : Type :=
  | Returns (a : A)
  | Panics (msg : string).
Arguments Returns {A} a.
Arguments Panics {A} msg.

(** ** net/http: the parts the service touches *)

Module http.

Definition MethodGet : string := "GET".
Definition StatusOK : Z := 200.
Definition StatusBadRequest : Z := 400.
Definition StatusMethodNotAllowed : Z := 405.
Definition StatusInternalServerError : Z := 500.

(** An outgoing request, as [http.NewRequest] and [Header.Set] build it. *)
Record ClientRequest : Type := {
  creq_Method : string;
  creq_URL : string;
  creq_Header : gmap string string;
}.

Definition Header_Set (key val : string) (req : ClientRequest) : ClientRequest :=
  {| creq_Method := creq_Method req;
     creq_URL := creq_URL req;
     creq_Header := <[key := val]> (creq_Header req) |}.

(** The upstream's answer. *)
Record Response (Body : Type) : Type := {
  StatusCode : Z;
  Status : string;
  RespBody : Body;
}.
Arguments StatusCode {Body} _.
Arguments Status {Body} _.
Arguments RespBody {Body} _.

(** [url.Values] and its [Get]: the first value of the key, or [""]. *)
Abbreviation Values := (gmap string (list string)).

Definition Get (v : Values) (key : string) : string :=
  match v !! key with
  | Some (x :: _) => x
  | _ => ""
  end.

(** An incoming request; [URL_Query] stands for [r.URL.Query()]. *)
Record Request : Type := {
  Method : string;
  URL_Path : string;
  URL_RawQuery : string;
  URL_Query : Values;
  RemoteAddr : string;
}.

End http.

(** ** The world outside the process *)

(** [Net] is the state of the network, [Body] what a response body holds.
    [url_error] is the error [http.NewRequest] reports for a URL it cannot
    parse, [client_Do] is [http.Client.Do], [ParseFloat s] is
    [strconv.ParseFloat(s, 64)]. *)
Class Platform : Type := {
  Net : Type;
  Body : Type;
  url_error : string -> option error;
  client_Do : http.ClientRequest -> Net -> result (http.Response Body) * Net;
  ParseFloat : string -> result float64;
}.

(** [json.NewDecoder(body).Decode(&v)] for a target of type [T]. *)
Class JSONDecode (P : Platform) (T : Type) : Type :=
  Decode : Body -> result T.
Arguments Decode {P T JSONDecode} body.

(** ** The structured log *)

(** [math.IsNaN(f)] and [math.IsInf(f, 0)] *)
Module math.

Definition IsNaN (f : float64) : bool :=
  match f with
  | S754_nan => true
  | _ => false
  end.

Definition IsInf (f : float64) : bool :=
  match f with
  | S754_infinity _ => true
  | _ => false
  end.

End math.

Module Logger.

Inductive LogLevel : Type := LevelDebug | LevelInfo | LevelWarn | LevelError.

(** The [interface{}] values the service puts into log fields. *)
Inductive value : Type :=
  | VString (s : string)
  | VFloat (f : float64)
  | VInt (n : Z).

(** A [LogEntry] without its timestamp. *)
Record LogEntry : Type := {
  Level : LogLevel;
  Message : string;
  Fields : gmap string value;
}.

(** What [encoding/json] does with a field value: a float64 for which
    [math.IsInf(f, 0) || math.IsNaN(f)] holds is an unsupported value,
    strings and integers always encode. *)
Definition encodes (v : value) : bool :=
  match v with
  | VFloat f => negb (math.IsInf f || math.IsNaN f)
  | VString _ | VInt _ => true
  end.

(** [json.Marshal(entry)]: it fails as soon as one field does not encode.
    The JSON text is kept as the entry it encodes. *)
Definition json_Marshal (entry : LogEntry) : result LogEntry :=
  if forallb (fun kv => encodes kv.2) (map_to_list (Fields entry))
  then Success entry
  else Failure "json: unsupported value".

(** A line of the output: the JSON of an entry, or the fallback
    [{"error":"failed to marshal log entry","message":"<message>"}], which
    has neither level nor fields. *)
Inductive line : Type :=
  | Json (jsonData : LogEntry)
  | Fallback (message : string).

(** What a [Logger] has written to its output, oldest first. *)
Definition output : Type := list line.

Definition log (level : LogLevel) (message : string)
    (fields : gmap string value) (l : output) : output :=
  let entry := {| Level := level; Message := message; Fields := fields |} in
  match json_Marshal entry with
  | Failure _ => l ++ [Fallback message]
  | Success jsonData => l ++ [Json jsonData]
  end.

Definition InfoWithFields := log LevelInfo.
Definition ErrorWithFields := log LevelError.
Definition WarnWithFields := log LevelWarn.
Definition DebugWithFields := log LevelDebug.

End Logger.

(** A float64 that is neither NaN nor infinite. *)
Definition finite (f : float64) : bool := negb (math.IsInf f || math.IsNaN f).

(** What a reader of the output finds in a line: the message always, the
    level only when the entry was marshalled. *)
Definition line_message (ln : Logger.line) : string :=
  match ln with
  | Logger.Json e => Logger.Message e
  | Logger.Fallback message => message
  end.

Definition line_level (ln : Logger.line) : option Logger.LogLevel :=
  match ln with
  | Logger.Json e => Some (Logger.Level e)
  | Logger.Fallback _ => None
  end.

(** The line a call of [log] adds. *)
Definition written (level : Logger.LogLevel) (message : string)
    (fields : gmap string Logger.value) : Logger.line :=
  match Logger.json_Marshal
          {| Logger.Level := level; Logger.Message := message;
             Logger.Fields := fields |} with
  | Failure _ => Logger.Fallback message
  | Success jsonData => Logger.Json jsonData
  end.

(** ** State passing *)

Section Runtime.
Context {P : Platform}.

(** The network, the requests sent to it so far, and the output of the
    default logger. *)
Record World : Type := {
  net : Net;
  sent : list http.ClientRequest;
  stdout : Logger.output;
}.

Definition M (A : Type) : Type := World -> outcome A * World.

Definition ret {A : Type} (a : A) : M A := fun w => (Returns a, w).

Definition bind {A B : Type} (m : M A) (k : A -> M B) : M B :=
  fun w =>
    match m w with
    | (Returns a, w') => k a w'
    | (Panics msg, w') => (Panics msg, w')
    end.

Definition panic {A : Type} (msg : string) : M A := fun w => (Panics msg, w).

(** [l[i]] *)
Definition index {A : Type} (l : list A) (i : nat) : M A :=
  match l !! i with
  | Some x => ret x
  | None => panic "index out of range"
  end.

(** [p == nil] *)
Definition is_nil {A : Type} (p : option A) : bool :=
  match p with
  | None => true
  | Some _ => false
  end.

(** [*p] *)
Definition deref {A : Type} (p : option A) : M A :=
  match p with
  | Some x => ret x
  | None => panic "invalid memory address or nil pointer dereference"
  end.

Definition write_log (f : Logger.output -> Logger.output) : M unit :=
  fun w => (Returns tt, {| net := net w; sent := sent w; stdout := f (stdout w) |}).

Definition do_request (req : http.ClientRequest) : M (result (http.Response Body)) :=
  fun w =>
    let '(r, n) := client_Do req (net w) in
    (Returns r, {| net := n; sent := sent w ++ [req]; stdout := stdout w |}).

End Runtime.

(** [M] with stdpp's monad notations [x ← m; k] and [m;; k]. *)
#[global] Instance M_ret {P : Platform} : MRet M := @ret P.
#[global] Instance M_bind {P : Platform} : MBind M := fun A B k m => bind m k.

(** The package-level functions of [logger], on the default logger. *)
Module logger.
Section Defs.
Context {P : Platform}.

Definition InfoWithFields (message : string) (fields : gmap string Logger.value) : M unit :=
  write_log (Logger.InfoWithFields message fields).
Definition ErrorWithFields (message : string) (fields : gmap string Logger.value) : M unit :=
  write_log (Logger.ErrorWithFields message fields).
Definition WarnWithFields (message : string) (fields : gmap string Logger.value) : M unit :=
  write_log (Logger.WarnWithFields message fields).
Definition DebugWithFields (message : string) (fields : gmap string Logger.value) : M unit :=
  write_log (Logger.DebugWithFields message fields).
End Defs.
End logger.

(** ** httpclient *)

Module httpclient.
Section Defs.
Context {P : Platform}.

(** [http.NewRequest(method, url, nil)] *)
Definition NewRequest (method url : string) : result http.ClientRequest :=
  match url_error url with
  | Some err => Failure err
  | None =>
    Success {| http.creq_Method := method;
               http.creq_URL := url;
               http.creq_Header := ∅ |}
  end.

(** The request [MakeRequest] sends for [url]. *)
Definition request (url userAgent : string) : http.ClientRequest :=
  http.Header_Set "Accept" "application/json"
    (http.Header_Set "User-Agent" userAgent
      {| http.creq_Method := http.MethodGet;
         http.creq_URL := url;
         http.creq_Header := ∅ |}).

Definition MakeRequest (url userAgent : string) : M (result Body) :=
  match NewRequest http.MethodGet url with
  | Failure err => ret (Failure ("failed to create request: " +:+ err))
  | Success req =>
    let req := http.Header_Set "User-Agent" userAgent req in
    let req := http.Header_Set "Accept" "application/json" req in
    r ← do_request req;
    match r with
    | Failure err => ret (Failure ("failed to make request: " +:+ err))
    | Success resp =>
      if negb (http.StatusCode resp =? http.StatusOK)%Z then
        ret (Failure ("API returned status: "
                      +:+ strconv.Itoa (http.StatusCode resp)
                      +:+ " " +:+ http.Status resp))
      else
        ret (Success (http.RespBody resp))
    end
  end.

End Defs.
End httpclient.

(** ** weather *)

Module weather.

Import Logger.

Definition userAgent : string :=
  "example-project-weather-service/1.0 (contact: support@example.com)".
Definition noaaBaseURL : string := "https://api.weather.gov".

(** The literal that follows the number in the formatted temperature, byte
    for byte as the source file has it: C3 82 C2 B0 46. *)
Definition degreesF : string :=
  string_of_list_byte [Byte.xc3; Byte.x82; Byte.xc2; Byte.xb0; Byte.x46].

Record pointsProperties : Type := {
  GridId : string;
  GridX : Z;
  GridY : Z;
  ObservationStations : string;
}.
Record pointsResponse : Type := { points_Properties : pointsProperties }.

Record stationProperties : Type := { StationIdentifier : string }.
Record stationFeature : Type := { station_Properties : stationProperties }.
Record stationsResponse : Type := { Features : list stationFeature }.

(** [Value] is a [*float64]: [None] is the nil pointer a JSON null leaves. *)
Record temperature : Type := {
  Value : option float64;
  UnitCode : string;
}.
Record observationProperties : Type := {
  Temperature : temperature;
  TextDescription : string;
}.
Record observationResponse : Type := {
  observation_Properties : observationProperties;
}.

Definition determineStatus (tempF : float64) : string :=
  if F64.gtb tempF (F64.of_Z 75) then "hot"
  else if F64.ltb tempF (F64.of_Z 50) then "cold"
  else "moderate".

Section Defs.
Context {P : Platform}.
Context {D_points : JSONDecode P pointsResponse}.
Context {D_stations : JSONDecode P stationsResponse}.
Context {D_observation : JSONDecode P observationResponse}.

(** [fmt.Sprintf("%s/points/%.4f,%.4f", noaaBaseURL, latitude, longitude)] *)
Definition pointsURL (latitude longitude : float64) : string :=
  noaaBaseURL +:+ "/points/" +:+ strconv.FormatFloat latitude 4
              +:+ "," +:+ strconv.FormatFloat longitude 4.

(** [fmt.Sprintf("%s/stations/%s/observations/latest", noaaBaseURL, stationId)] *)
Definition observationURL (stationId : string) : string :=
  noaaBaseURL +:+ "/stations/" +:+ stationId +:+ "/observations/latest".

Definition getGridpoint (latitude longitude : float64)
    : M (result (string * string)) :=
  logger.DebugWithFields "Fetching gridpoint from NOAA"
    {[ "latitude" := VFloat latitude; "longitude" := VFloat longitude ]};;
  let pointsURL := pointsURL latitude longitude in
  r ← httpclient.MakeRequest pointsURL userAgent;
  match r with
  | Failure err =>
    logger.ErrorWithFields "Failed to get gridpoint from NOAA points API"
      {[ "error" := VString err;
         "latitude" := VFloat latitude;
         "longitude" := VFloat longitude;
         "url" := VString pointsURL ]};;
    ret (Failure ("failed to get gridpoint from NOAA points API: " +:+ err))
  | Success body =>
    match Decode body with
    | Failure err =>
      logger.ErrorWithFields "Failed to decode NOAA points API response"
        {[ "error" := VString err;
           "latitude" := VFloat latitude;
           "longitude" := VFloat longitude ]};;
      ret (Failure ("failed to decode NOAA points API response: " +:+ err))
    | Success pointsResp =>
      let props := points_Properties pointsResp in
      logger.DebugWithFields "Successfully retrieved gridpoint"
        {[ "gridId" := VString (GridId props);
           "gridX" := VInt (GridX props);
           "gridY" := VInt (GridY props) ]};;
      ret (Success (GridId props, ObservationStations props))
    end
  end.

Definition GetWeatherFromNOAA (latitude longitude : float64)
    : M (result (string * string)) :=
  logger.InfoWithFields "Fetching weather from NOAA"
    {[ "latitude" := VFloat latitude; "longitude" := VFloat longitude ]};;
  (* Step 1 *)
  g ← getGridpoint latitude longitude;
  match g with
  | Failure err => ret (Failure err)
  | Success (gridId, observationStationsURL) =>
  (* Step 2 *)
  r ← httpclient.MakeRequest observationStationsURL userAgent;
  match r with
  | Failure err =>
    logger.ErrorWithFields "Failed to get observation stations"
      {[ "error" := VString err; "url" := VString observationStationsURL ]};;
    ret (Failure ("failed to get observation stations: " +:+ err))
  | Success stationsBody =>
  match Decode stationsBody with
  | Failure err =>
    logger.ErrorWithFields "Failed to decode stations response"
      {[ "error" := VString err ]};;
    ret (Failure ("failed to decode stations response: " +:+ err))
  | Success stationsResp =>
  if (length (Features stationsResp) =? 0)%nat then
    logger.WarnWithFields "No observation stations available"
      {[ "gridId" := VString gridId ]};;
    ret (Failure "no observation stations available")
  else
  first ← index (Features stationsResp) 0;
  let stationId := StationIdentifier (station_Properties first) in
  logger.DebugWithFields "Fetching current observations from NOAA station"
    {[ "stationId" := VString stationId; "gridId" := VString gridId ]};;
  (* Step 3 *)
  let observationURL := observationURL stationId in
  o ← httpclient.MakeRequest observationURL userAgent;
  match o with
  | Failure err =>
    logger.ErrorWithFields "Failed to get current observations from NOAA"
      {[ "error" := VString err;
         "stationId" := VString stationId;
         "url" := VString observationURL ]};;
    ret (Failure ("failed to get current observations from NOAA: " +:+ err))
  | Success obsBody =>
  match Decode obsBody with
  | Failure err =>
    logger.ErrorWithFields "Failed to decode NOAA observations response"
      {[ "error" := VString err; "stationId" := VString stationId ]};;
    ret (Failure ("failed to decode NOAA observations response: " +:+ err))
  | Success observationResp =>
  let reading := Value (Temperature (observation_Properties observationResp)) in
  if is_nil reading then
    logger.WarnWithFields "Temperature data not available from NOAA observations"
      {[ "stationId" := VString stationId ]};;
    ret (Failure "temperature data not available from NOAA observations")
  else
  tempC ← deref reading;
  let tempF :=
    F64.add (F64.div (F64.mul tempC (F64.of_Z 9)) (F64.of_Z 5)) (F64.of_Z 32) in
  let status := determineStatus tempF in
  logger.InfoWithFields "Successfully retrieved current weather data"
    {[ "latitude" := VFloat latitude;
       "longitude" := VFloat longitude;
       "status" := VString status;
       "tempF" := VFloat tempF;
       "tempC" := VFloat tempC;
       "gridId" := VString gridId;
       "stationId" := VString stationId ]};;
  ret (Success (status, strconv.FormatFloat tempF 1 +:+ degreesF))
  end end end end end.

End Defs.
End weather.

(** ** api *)

Module api.

Import Logger.

Record WeatherResponse : Type := {
  Status : string;
  Temp : string;
}.

(** What the handler does with its [http.ResponseWriter]: either one call
    [http.Error(w, msg, code)], or the headers it sets followed by
    [json.NewEncoder(w).Encode(response)], which answers 200. *)
Inductive reply : Type :=
  | http_Error (msg : string) (code : Z)
  | json_Encode (header : gmap string string) (response : WeatherResponse).

Section Defs.
Context {P : Platform}.
Context {D_points : JSONDecode P weather.pointsResponse}.
Context {D_stations : JSONDecode P weather.stationsResponse}.
Context {D_observation : JSONDecode P weather.observationResponse}.

Definition WeatherHandler (r : http.Request) : M reply :=
  logger.InfoWithFields "Incoming weather request"
    {[ "method" := VString (http.Method r);
       "path" := VString (http.URL_Path r);
       "query" := VString (http.URL_RawQuery r);
       "ip" := VString (http.RemoteAddr r) ]};;
  if negb (String.eqb (http.Method r) http.MethodGet) then
    logger.WarnWithFields "Method not allowed"
      {[ "method" := VString (http.Method r);
         "path" := VString (http.URL_Path r) ]};;
    ret (http_Error "Method not allowed" http.StatusMethodNotAllowed)
  else
  let latStr := http.Get (http.URL_Query r) "latitude" in
  let lonStr := http.Get (http.URL_Query r) "longitude" in
  if String.eqb latStr "" || String.eqb lonStr "" then
    logger.WarnWithFields "Missing required query parameters"
      {[ "latitude" := VString latStr; "longitude" := VString lonStr ]};;
    ret (http_Error "latitude and longitude query parameters are required"
                    http.StatusBadRequest)
  else
  match ParseFloat latStr with
  | Failure err =>
    logger.WarnWithFields "Invalid latitude parameter"
      {[ "latitude" := VString latStr; "error" := VString err ]};;
    ret (http_Error "invalid latitude parameter" http.StatusBadRequest)
  | Success latitude =>
  match ParseFloat lonStr with
  | Failure err =>
    logger.WarnWithFields "Invalid longitude parameter"
      {[ "longitude" := VString lonStr; "error" := VString err ]};;
    ret (http_Error "invalid longitude parameter" http.StatusBadRequest)
  | Success longitude =>
  if F64.ltb latitude (F64.of_Z (-90)) || F64.gtb latitude (F64.of_Z 90) then
    logger.WarnWithFields "Latitude out of range"
      {[ "latitude" := VFloat latitude ]};;
    ret (http_Error "latitude must be between -90 and 90" http.StatusBadRequest)
  else
  if F64.ltb longitude (F64.of_Z (-180)) || F64.gtb longitude (F64.of_Z 180) then
    logger.WarnWithFields "Longitude out of range"
      {[ "longitude" := VFloat longitude ]};;
    ret (http_Error "longitude must be between -180 and 180" http.StatusBadRequest)
  else
  res ← weather.GetWeatherFromNOAA latitude longitude;
  match res with
  | Failure err =>
    logger.ErrorWithFields "Error fetching weather"
      {[ "error" := VString err;
         "latitude" := VFloat latitude;
         "longitude" := VFloat longitude ]};;
    ret (http_Error "Failed to fetch weather data" http.StatusInternalServerError)
  | Success (status, temp) =>
    let response := {| Status := status; Temp := temp |} in
    logger.InfoWithFields "Weather request successful"
      {[ "latitude" := VFloat latitude;
         "longitude" := VFloat longitude;
         "status" := VString status;
         "temp" := VString temp ]};;
    let header : gmap string string := ∅ in
    let header := <["Content-Type" := "application/json"]> header in
    let header := <["Cache-Control" := "public, max-age=10"]> header in
    ret (json_Encode header response)
  end end end.

End Defs.
End api.

(** ** What the upstream answers

    The hypotheses of the theorems on the call chain: the upstream, in
    network state [n], answers a GET with 200 and a body that decodes. *)

Section Chain.
Context {P : Platform}.
Context {D_points : JSONDecode P weather.pointsResponse}.
Context {D_stations : JSONDecode P weather.stationsResponse}.
Context {D_observation : JSONDecode P weather.observationResponse}.

Definition get (url : string) : http.ClientRequest :=
  httpclient.request url weather.userAgent.

Definition answers (url : string) (n : Net) (b : Body) (n' : Net) : Prop :=
  url_error url = None /\
  exists resp,
    client_Do (get url) n = (Success resp, n') /\
    http.StatusCode resp = http.StatusOK /\
    http.RespBody resp = b.

(** Step A: the points lookup yields [pr]. *)
Definition stepA (latitude longitude : float64) (n : Net)
    (pr : weather.pointsResponse) (n' : Net) : Prop :=
  exists b, answers (weather.pointsURL latitude longitude) n b n' /\
            Decode b = Success pr.

(** Step B: the stations lookup yields [sr]. *)
Definition stepB (pr : weather.pointsResponse) (n : Net)
    (sr : weather.stationsResponse) (n' : Net) : Prop :=
  exists b,
    answers (weather.ObservationStations (weather.points_Properties pr)) n b n' /\
    Decode b = Success sr.

(** Step C: the latest observation of [station] yields [obs]. *)
Definition stepC (station : weather.stationFeature) (n : Net)
    (obs : weather.observationResponse) (n' : Net) : Prop :=
  exists b,
    answers (weather.observationURL
               (weather.StationIdentifier (weather.station_Properties station)))
            n b n' /\
    Decode b = Success obs.

Definition reading (obs : weather.observationResponse) : option float64 :=
  weather.Value (weather.Temperature (weather.observation_Properties obs)).

(** No request was sent and the network is untouched between [w] and [w']. *)
Definition no_upstream_call (w w' : World) : Prop :=
  sent w' = sent w /\ net w' = net w.

(** A GET request whose two parameters are present and parse, to
    [latitude] and [longitude]. *)
Definition parsed (r : http.Request) (latitude longitude : float64) : Prop :=
  http.Method r = http.MethodGet /\
  http.Get (http.URL_Query r) "latitude" <> "" /\
  http.Get (http.URL_Query r) "longitude" <> "" /\
  ParseFloat (http.Get (http.URL_Query r) "latitude") = Success latitude /\
  ParseFloat (http.Get (http.URL_Query r) "longitude") = Success longitude.

(** From [w], the computation [m] returns (it does not panic) a value and
    a world that satisfy [Q]. *)
Definition runs {A : Type} (m : M A) (w : World) (Q : A -> World -> Prop) : Prop :=
  exists a w', m w = (Returns a, w') /\ Q a w'.

(** The first line [GetWeatherFromNOAA] logs: the entry that records its
    arguments when both are finite, the fallback line when one is not. *)
Definition fetching (latitude longitude : float64) : Logger.line :=
  if finite latitude && finite longitude then
    Logger.Json
      {| Logger.Level := Logger.LevelInfo;
         Logger.Message := "Fetching weather from NOAA";
         Logger.Fields := {[ "latitude" := Logger.VFloat latitude;
                             "longitude" := Logger.VFloat longitude ]} |}
  else Logger.Fallback "Fetching weather from NOAA".

(** The unit as the specification words it: a degree symbol, the single
    character U+00B0 (C2 B0 in UTF-8), and the letter F. *)
Definition spec_degreesF : string :=
  string_of_list_byte [Byte.xc2; Byte.xb0; Byte.x46].

(** [tempC * 9.0 / 5.0 + 32.0], evaluated left to right in binary64. *)
Definition fahrenheit (tempC : float64) : float64 :=
  F64.add (F64.div (F64.mul tempC (F64.of_Z 9)) (F64.of_Z 5)) (F64.of_Z 32).

End Chain.

(** ** The shape of a number with one decimal

    An optional minus sign, one or more decimal digits, a point, and exactly
    one more digit: what the specification asks of the formatted number. *)

Definition is_digit (c : ascii) : bool :=
  let n := N_of_ascii c in ((48 <=? n) && (n <=? 57))%N.

Fixpoint all_digits (s : string) : bool :=
  match s with
  | EmptyString => true
  | String c s' => is_digit c && all_digits s'
  end.

(** Digits, a point, one digit; [seen] tells whether a digit was read. *)
Fixpoint digits_point_digit (s : string) (seen : bool) : bool :=
  match s with
  | EmptyString => false
  | String c s' =>
    if is_digit c then digits_point_digit s' true
    else if Ascii.eqb c "." then
      seen && match s' with
              | String d EmptyString => is_digit d
              | _ => false
              end
    else false
  end.

Definition one_decimal (s : string) : bool :=
  match s with
  | String "-" s' => digits_point_digit s' false
  | _ => digits_point_digit s false
  end.

(** ** A canned upstream *)

Module Mock.

Inductive body : Type :=
  | Points (v : weather.pointsResponse)
  | Stations (v : weather.stationsResponse)
  | Observation (v : weather.observationResponse)
  | Text (s : string).

Definition stationsURL : string :=
  "https://api.weather.gov/gridpoints/EAX/40,48/stations".

Definition station (id : string) : weather.stationFeature :=
  {| weather.station_Properties := {| weather.StationIdentifier := id |} |}.

Definition points : weather.pointsResponse :=
  {| weather.points_Properties :=
       {| weather.GridId := "EAX";
          weather.GridX := 40;
          weather.GridY := 48;
          weather.ObservationStations := stationsURL |} |}.

Definition observation (tempC : option float64) : weather.observationResponse :=
  {| weather.observation_Properties :=
       {| weather.Temperature :=
            {| weather.Value := tempC; weather.UnitCode := "wmoUnit:degC" |};
          weather.TextDescription := "Clear" |} |}.

(** The coordinate of the end-to-end example, (38.9728, -94.712). *)
Definition latitude : float64 := F64.of_ratio 389728 10000.
Definition longitude : float64 := F64.of_ratio (-94712) 1000.

Definition ok (b : body) : http.Response body :=
  {| http.StatusCode := 200; http.Status := "200 OK"; http.RespBody := b |}.

(** The upstream of the end-to-end example: grid EAX for the one known
    point, the given stations, and the given reading at station KIXD;
    404 for anything else. The state counts the requests served. *)
Definition serve (stations : list string) (tempC : option float64)
    (req : http.ClientRequest) (n : nat) : result (http.Response body) * nat :=
  let url := http.creq_URL req in
  let resp :=
    if String.eqb url "https://api.weather.gov/points/38.9728,-94.7120" then
      ok (Points points)
    else if String.eqb url stationsURL then
      ok (Stations {| weather.Features := map station stations |})
    else if String.eqb url "https://api.weather.gov/stations/KIXD/observations/latest" then
      ok (Observation (observation tempC))
    else
      {| http.StatusCode := 404; http.Status := "404 Not Found";
         http.RespBody := Text "Not Found" |}
  in (Success resp, S n).

Definition digit (c : ascii) : option N :=
  let n := N_of_ascii c in
  if ((48 <=? n) && (n <=? 57))%N then Some (n - 48)%N else None.

(** Digits with at most one point: the digits read as one integer, and how
    many of them follow the point. *)
Fixpoint decimal (s : string) (acc : N) (frac : option nat) (any : bool)
    : option (N * nat) :=
  match s with
  | EmptyString => if any then Some (acc, default O frac) else None
  | String c s' =>
    if Ascii.eqb c "." then
      match frac with
      | None => decimal s' acc (Some O) any
      | Some _ => None
      end
    else
      match digit c with
      | Some d => decimal s' (10 * acc + d)%N (S <$> frac) true
      | None => None
      end
  end.

Definition pow10 (k : nat) : positive := Nat.iter k (Pos.mul 10) 1%positive.

(** Letters in lower case: the special values are read in any case. *)
Definition lower (c : ascii) : ascii :=
  let n := N_of_ascii c in
  if ((65 <=? n) && (n <=? 90))%N then ascii_of_N (n + 32) else c.

Fixpoint to_lower (s : string) : string :=
  match s with
  | EmptyString => EmptyString
  | String c s' => String (lower c) (to_lower s')
  end.

(** What follows the sign: [Some (Some f)] is a value, [Some None] a
    numeral out of the range of float64, [None] a syntax error. *)
Definition unsigned (neg : bool) (s : string) : option (option float64) :=
  if String.eqb (to_lower s) "inf" || String.eqb (to_lower s) "infinity"
  then Some (Some (F64.inf neg))
  else
    match decimal s 0%N None false with
    | Some (N0, _) => Some (Some (S754_zero neg))
    | Some (Npos p, k) =>
      let f := F64.of_ratio (if neg then Zneg p else Zpos p) (pow10 k) in
      if math.IsInf f then Some None else Some (Some f)
    | None => None
    end.

(** A stand-in for [strconv.ParseFloat(s, 64)] on plain decimal numerals
    (sign, digits, one optional point), [NaN] and signed [Inf] or
    [Infinity] in any letter case; a numeral that overflows is a range
    error. It turns down the exponent, hexadecimal and underscore forms,
    which the concrete runs do not use. *)
Definition parseFloat (s : string) : result float64 :=
  let quote := String (ascii_of_nat 34) EmptyString in
  let r :=
    if String.eqb (to_lower s) "nan" then Some (Some F64.nan)
    else
      match s with
      | String "-" s' => unsigned true s'
      | String "+" s' => unsigned false s'
      | _ => unsigned false s
      end in
  match r with
  | Some (Some f) => Success f
  | Some None =>
    Failure ("strconv.ParseFloat: parsing " +:+ quote +:+ s +:+ quote
             +:+ ": value out of range")
  | None =>
    Failure ("strconv.ParseFloat: parsing " +:+ quote +:+ s +:+ quote
             +:+ ": invalid syntax")
  end.

Definition platform (stations : list string) (tempC : option float64)
    : Platform := {|
  Net := nat;
  Body := body;
  url_error := fun _ => None;
  client_Do := serve stations tempC;
  ParseFloat := parseFloat;
|}.

#[global] Instance decode_points (stations : list string) (tempC : option float64)
    : JSONDecode (platform stations tempC) weather.pointsResponse :=
  fun b => match b with
           | Points v => Success v
           | _ => Failure "json: cannot unmarshal"
           end.

#[global] Instance decode_stations (stations : list string) (tempC : option float64)
    : JSONDecode (platform stations tempC) weather.stationsResponse :=
  fun b => match b with
           | Stations v => Success v
           | _ => Failure "json: cannot unmarshal"
           end.

#[global] Instance decode_observation (stations : list string) (tempC : option float64)
    : JSONDecode (platform stations tempC) weather.observationResponse :=
  fun b => match b with
           | Observation v => Success v
           | _ => Failure "json: cannot unmarshal"
           end.

Definition boot (stations : list string) (tempC : option float64)
    : @World (platform stations tempC) :=
  @Build_World (platform stations tempC) O [] [].

(** The fetch for the example's coordinate, from a fresh world. *)
Definition GetWeatherFromNOAA (stations : list string) (tempC : option float64)
    : outcome (result (string * string)) * @World (platform stations tempC) :=
  weather.GetWeatherFromNOAA (P := platform stations tempC)
    latitude longitude (boot stations tempC).

Definition WeatherHandler (stations : list string) (tempC : option float64)
    (r : http.Request) : outcome api.reply * @World (platform stations tempC) :=
  api.WeatherHandler (P := platform stations tempC) r (boot stations tempC).

(** [GET /weather?latitude=..&longitude=..], a parameter left out when its
    text is empty. *)
Definition request (method latitude longitude : string) : http.Request :=
  let q : http.Values := ∅ in
  let q := if String.eqb latitude "" then q else <["latitude" := [latitude]]> q in
  let q := if String.eqb longitude "" then q else <["longitude" := [longitude]]> q in
  {| http.Method := method;
     http.URL_Path := "/weather";
     http.URL_RawQuery := "latitude=" +:+ latitude +:+ "&longitude=" +:+ longitude;
     http.URL_Query := q;
     http.RemoteAddr := "127.0.0.1:40000" |}.

End Mock.

(** ** Failing requests, the handler's first log line, the order of statuses *)

Section Failures.
Context {P : Platform}.

(** In network state [n], [MakeRequest] for [url] returns the error [err]
    and leaves the network in state [n']. *)
Definition request_fails (url : string) (n : Net) (err : error) (n' : Net) : Prop :=
  exists w w',
    net w = n /\
    httpclient.MakeRequest url weather.userAgent w = (Returns (Failure err), w') /\
    net w' = n'.

(** The line [WeatherHandler] logs first. *)
Definition incoming (r : http.Request) : Logger.line :=
  Logger.Json
    {| Logger.Level := Logger.LevelInfo;
       Logger.Message := "Incoming weather request";
       Logger.Fields := {[ "method" := Logger.VString (http.Method r);
                           "path" := Logger.VString (http.URL_Path r);
                           "query" := Logger.VString (http.URL_RawQuery r);
                           "ip" := Logger.VString (http.RemoteAddr r) ]} |}.

(** The world once that line is written. *)
Definition received (r : http.Request) (w : World) : World :=
  {| net := net w; sent := sent w; stdout := stdout w ++ [incoming r] |}.

(** A request as [MakeRequest] builds it: GET, with the two headers. *)
Definition well_formed (userAgent : string) (req : http.ClientRequest) : Prop :=
  http.creq_Method req = "GET" /\
  http.creq_Header req !! "User-Agent" = Some userAgent /\
  http.creq_Header req !! "Accept" = Some "application/json" /\
  forall key, key <> "User-Agent" -> key <> "Accept" ->
              http.creq_Header req !! key = None.

(** The last line of a fetch that failed: it does not carry the message of
    a success, and its level is warn or error; it is the fallback line, which
    has no level, only when a coordinate is not finite. *)
Definition failure_line (latitude longitude : float64) (ln : Logger.line) : Prop :=
  line_message ln <> "Successfully retrieved current weather data" /\
  match line_level ln with
  | Some level => level = Logger.LevelWarn \/ level = Logger.LevelError
  | None => finite latitude && finite longitude = false
  end.

(** The last line of a fetch that succeeded with the reading [tempC]: it
    carries the message of a success, at level info; it is the fallback line
    only when a coordinate, the reading or its Fahrenheit value is not
    finite. *)
Definition success_line (latitude longitude tempC : float64)
    (ln : Logger.line) : Prop :=
  line_message ln = "Successfully retrieved current weather data" /\
  match line_level ln with
  | Some level => level = Logger.LevelInfo
  | None =>
    finite latitude && finite longitude
    && finite tempC && finite (fahrenheit tempC) = false
  end.

(** Between [w] and [w'] at most [k] requests were sent, each of them one
    that [MakeRequest] builds with the service's user agent. *)
Definition asked (k : nat) (w w' : World) : Prop :=
  exists reqs,
    sent w' = sent w ++ reqs /\
    (length reqs <= k)%nat /\
    Forall (fun req => exists url, req = httpclient.request url weather.userAgent) reqs.

(** Coordinates that pass the handler's four range comparisons. *)
Definition in_range (latitude longitude : float64) : Prop :=
  F64.ltb latitude (F64.of_Z (-90)) = false /\
  F64.gtb latitude (F64.of_Z 90) = false /\
  F64.ltb longitude (F64.of_Z (-180)) = false /\
  F64.gtb longitude (F64.of_Z 180) = false.

(** The headers of a successful reply. *)
Definition json_headers : gmap string string :=
  <["Cache-Control" := "public, max-age=10"]>
    (<["Content-Type" := "application/json"]> ∅).

(** The replies by which the handler turns a request down before it asks
    the upstream anything. *)
Definition rejections : list api.reply :=
  [api.http_Error "Method not allowed" 405;
   api.http_Error "latitude and longitude query parameters are required" 400;
   api.http_Error "invalid latitude parameter" 400;
   api.http_Error "invalid longitude parameter" 400;
   api.http_Error "latitude must be between -90 and 90" 400;
   api.http_Error "longitude must be between -180 and 180" 400].

(** The reply the handler derives from the result of the fetch. *)
Definition reply_of (res : result (string * string)) : api.reply :=
  match res with
  | Failure _ => api.http_Error "Failed to fetch weather data" 500
  | Success (status, temp) =>
    api.json_Encode json_headers {| api.Status := status; api.Temp := temp |}
  end.

(** The log of [w'] ends with the line [ln]. *)
Definition logged_last (ln : Logger.line) (w' : World) : Prop :=
  exists older, stdout w' = older ++ [ln].

End Failures.

(** cold, moderate, hot, in that order. *)
Definition rank (status : string) : nat :=
  if String.eqb status "hot" then 2
  else if String.eqb status "moderate" then 1
  else 0.

(** ** An upstream that follows a script

    Each URL of the table is answered as the table says; any other URL
    cannot be reached. [http.NewRequest] turns down a URL with a space. *)

Module Script.

Inductive answer : Type :=
  | Answer (code : Z) (status : string) (b : Mock.body)
  | Broken (err : error).

Fixpoint lookup (table : list (string * answer)) (url : string) : option answer :=
  match table with
  | [] => None
  | (u, a) :: rest => if String.eqb u url then Some a else lookup rest url
  end.

Definition serve (table : list (string * answer))
    (req : http.ClientRequest) (n : nat) : result (http.Response Mock.body) * nat :=
  match lookup table (http.creq_URL req) with
  | Some (Answer code status b) =>
    (Success {| http.StatusCode := code; http.Status := status;
                http.RespBody := b |}, S n)
  | Some (Broken err) => (Failure err, S n)
  | None => (Failure "dial tcp: connection refused", S n)
  end.

Fixpoint has_space (s : string) : bool :=
  match s with
  | EmptyString => false
  | String c s' => Ascii.eqb c " " || has_space s'
  end.

(** What follows the [://] of a URL, and of that the part before the
    path, the query or the fragment. *)
Fixpoint after_scheme (s : string) : string :=
  match s with
  | String ":" (String "/" (String "/" rest)) => rest
  | String _ s' => after_scheme s'
  | EmptyString => EmptyString
  end.

Fixpoint host (s : string) : string :=
  match s with
  | EmptyString => EmptyString
  | String c s' =>
    if Ascii.eqb c "/" || Ascii.eqb c "?" || Ascii.eqb c "#" then EmptyString
    else String c (host s')
  end.

(** A stand-in for the URLs [http.NewRequest] turns down: those with a
    space in the host name. A space in the path is accepted, as by Go. *)
Definition platform (table : list (string * answer)) : Platform := {|
  Net := nat;
  Body := Mock.body;
  url_error := fun url =>
    if has_space (host (after_scheme url))
    then Some "net/url: invalid character in host name"
    else None;
  client_Do := serve table;
  ParseFloat := Mock.parseFloat;
|}.

#[global] Instance decode_points (table : list (string * answer))
    : JSONDecode (platform table) weather.pointsResponse :=
  fun b => match b with
           | Mock.Points v => Success v
           | _ => Failure "json: cannot unmarshal"
           end.

#[global] Instance decode_stations (table : list (string * answer))
    : JSONDecode (platform table) weather.stationsResponse :=
  fun b => match b with
           | Mock.Stations v => Success v
           | _ => Failure "json: cannot unmarshal"
           end.

#[global] Instance decode_observation (table : list (string * answer))
    : JSONDecode (platform table) weather.observationResponse :=
  fun b => match b with
           | Mock.Observation v => Success v
           | _ => Failure "json: cannot unmarshal"
           end.

Definition boot (table : list (string * answer)) : @World (platform table) :=
  @Build_World (platform table) O [] [].

Definition pointsURL : string := "https://api.weather.gov/points/38.9728,-94.7120".
Definition observationURL : string :=
  "https://api.weather.gov/stations/KIXD/observations/latest".

Definition ok (b : Mock.body) : answer := Answer 200 "200 OK" b.
Definition stations : Mock.body :=
  Mock.Stations {| weather.Features := [Mock.station "KIXD"; Mock.station "KOJC"] |}.

End Script.

(** * Properties *)

(** ** The logger *)

Section Log_facts.

(** A call of [log] adds one line. *)
Lemma log_written (level : Logger.LogLevel) (message : string)
    (fields : gmap string Logger.value) (l : Logger.output) :
  Logger.log level message fields l = l ++ [written level message fields].
Proof.
  unfold Logger.log, written. cbv zeta.
  destruct (Logger.json_Marshal _); reflexivity.
Qed.

(** The line is the entry when every field encodes. *)
Lemma written_Json (level : Logger.LogLevel) (message : string)
    (fields : gmap string Logger.value) :
  map_Forall (fun _ v => Logger.encodes v = true) fields ->
  written level message fields
    = Logger.Json {| Logger.Level := level; Logger.Message := message;
                     Logger.Fields := fields |}.
Proof.
  intros Hall. unfold written, Logger.json_Marshal. cbn [Logger.Fields].
  replace (forallb _ _) with true; [reflexivity |].
  symmetry. apply forallb_forall. intros [k v] Hin.
  apply list_elem_of_In, elem_of_map_to_list in Hin.
  exact (Hall k v Hin).
Qed.

(** The line is the fallback as soon as one field does not encode. *)
Lemma written_Fallback (level : Logger.LogLevel) (message : string)
    (fields : gmap string Logger.value) (k : string) (v : Logger.value) :
  fields !! k = Some v ->
  Logger.encodes v = false ->
  written level message fields = Logger.Fallback message.
Proof.
  intros Hk Hv. unfold written, Logger.json_Marshal. cbn [Logger.Fields].
  destruct (forallb _ _) eqn:Hall; [| reflexivity].
  rewrite forallb_forall in Hall.
  specialize (Hall (k, v)). cbn [snd] in Hall.
  rewrite Hall in Hv; [discriminate Hv |].
  apply list_elem_of_In, elem_of_map_to_list. exact Hk.
Qed.

(** Either way the line carries the message, and no level but the one of
    the call. *)
Lemma written_message (level : Logger.LogLevel) (message : string)
    (fields : gmap string Logger.value) :
  line_message (written level message fields) = message.
Proof.
  unfold written, Logger.json_Marshal.
  destruct (forallb _ _); reflexivity.
Qed.

Lemma written_level (level : Logger.LogLevel) (message : string)
    (fields : gmap string Logger.value) :
  written level message fields
    = Logger.Json {| Logger.Level := level; Logger.Message := message;
                     Logger.Fields := fields |} \/
  written level message fields = Logger.Fallback message.
Proof.
  unfold written, Logger.json_Marshal. cbn [Logger.Fields].
  destruct (forallb _ _); [left | right]; reflexivity.
Qed.

End Log_facts.

(** Every field of the map in the goal encodes: strings and integers by
    themselves, a float64 by a hypothesis. *)
Ltac all_encode :=
  repeat (apply map_Forall_insert_2; [first [reflexivity | assumption] |]);
  first [apply map_Forall_singleton; first [reflexivity | assumption]
        | apply map_Forall_empty].

Section Lines.

Lemma written_fetching (latitude longitude : float64) :
  written Logger.LevelInfo "Fetching weather from NOAA"
    {[ "latitude" := Logger.VFloat latitude;
       "longitude" := Logger.VFloat longitude ]}
  = fetching latitude longitude.
Proof.
  unfold fetching.
  destruct (finite latitude) eqn:Hlat; cbn [andb].
  - destruct (finite longitude) eqn:Hlon.
    + apply written_Json. all_encode.
    + apply (written_Fallback _ _ _ "longitude" (Logger.VFloat longitude));
        [reflexivity | exact Hlon].
  - apply (written_Fallback _ _ _ "latitude" (Logger.VFloat latitude));
      [reflexivity | exact Hlat].
Qed.

Lemma written_incoming (r : http.Request) :
  written Logger.LevelInfo "Incoming weather request"
    {[ "method" := Logger.VString (http.Method r);
       "path" := Logger.VString (http.URL_Path r);
       "query" := Logger.VString (http.URL_RawQuery r);
       "ip" := Logger.VString (http.RemoteAddr r) ]}
  = incoming r.
Proof. apply written_Json. all_encode. Qed.

End Lines.

(** ** Comparisons of binary64 values *)

Section Float_facts.

Lemma f64_50 : F64.of_Z 50 = S754_finite false 7036874417766400 (-47).
Proof. vm_compute. reflexivity. Qed.

Lemma f64_75 : F64.of_Z 75 = S754_finite false 5277655813324800 (-46).
Proof. vm_compute. reflexivity. Qed.

(** The decimal constants of the boundary readings, as binary64 bit
    patterns: 75.1 is 0x4052C66666666666 and 49.9 is 0x4048F33333333333. *)
Lemma f64_75_1 : F64.of_ratio 751 10 = S754_finite false 0x12C66666666666 (-46).
Proof. vm_compute. reflexivity. Qed.

Lemma f64_49_9 : F64.of_ratio 499 10 = S754_finite false 0x18F33333333333 (-47).
Proof. vm_compute. reflexivity. Qed.

Lemma SFcompare_antisym (x y : float64) :
  SFcompare y x = CompOpp <$> SFcompare x y.
Proof.
  destruct x as [sx|sx| |sx mx ex], y as [sy|sy| |sy my ey]; simpl;
    try reflexivity; try (destruct sx; reflexivity);
    try (destruct sy; reflexivity); try (destruct sx, sy; reflexivity).
  change (Pos.compare_cont Eq my mx) with (Pos.compare my mx).
  change (Pos.compare_cont Eq mx my) with (Pos.compare mx my).
  rewrite (Z.compare_antisym ex ey), (Pos.compare_antisym mx my).
  destruct sx, sy; simpl; try reflexivity;
    destruct (ex ?= ey)%Z; simpl; try reflexivity;
    destruct (mx ?= my)%positive; reflexivity.
Qed.

(** Nothing is both below 50 and above 75. *)
Lemma below_50_not_above_75 (f : float64) :
  F64.ltb f (F64.of_Z 50) = true -> F64.gtb f (F64.of_Z 75) = false.
Proof.
  rewrite f64_50, f64_75. unfold F64.ltb, F64.gtb, SFltb.
  destruct f as [s|s| |s m e]; cbv beta iota delta [SFcompare];
    try reflexivity; try discriminate.
  - destruct s; [reflexivity | discriminate].
  - destruct s; [reflexivity |].
    destruct (Z.compare_spec e (-47)), (Z.compare_spec (-46) e);
      try reflexivity; try discriminate; lia.
Qed.

(** From 50 up, nothing is below 50. *)
Lemma from_50_not_below_50 (f : float64) :
  F64.leb (F64.of_Z 50) f = true -> F64.ltb f (F64.of_Z 50) = false.
Proof.
  unfold F64.leb, F64.ltb, SFleb, SFltb.
  rewrite (SFcompare_antisym (F64.of_Z 50) f).
  destruct (SFcompare (F64.of_Z 50) f) as [[]|]; simpl; congruence.
Qed.

(** Up to 75, nothing is above 75. *)
Lemma up_to_75_not_above_75 (f : float64) :
  F64.leb f (F64.of_Z 75) = true -> F64.gtb f (F64.of_Z 75) = false.
Proof.
  unfold F64.leb, F64.gtb, SFleb, SFltb.
  rewrite (SFcompare_antisym f (F64.of_Z 75)).
  destruct (SFcompare f (F64.of_Z 75)) as [[]|]; simpl; congruence.
Qed.



Lemma determineStatus_cases (tempF : float64) :
  weather.determineStatus tempF = "hot" \/
  weather.determineStatus tempF = "cold" \/
  weather.determineStatus tempF = "moderate".
Proof.
  unfold weather.determineStatus.
  destruct (F64.gtb tempF (F64.of_Z 75)); [by left |].
  destruct (F64.ltb tempF (F64.of_Z 50)); [by right; left | by right; right].
Qed.

End Float_facts.

(** [C1] For every temperature the classification is [hot] exactly above 75,
    [cold] exactly below 50, and [moderate] from 50 to 75, both ends
    included; the readings 75.0 and 50.0 are moderate, 75.1 is hot and 49.9
    is cold. *)
Theorem determineStatus_bands (tempF : float64) :
  (F64.gtb tempF (F64.of_Z 75) = true <-> weather.determineStatus tempF = "hot") /\
  (F64.ltb tempF (F64.of_Z 50) = true <-> weather.determineStatus tempF = "cold") /\
  (F64.leb (F64.of_Z 50) tempF = true -> F64.leb tempF (F64.of_Z 75) = true ->
     weather.determineStatus tempF = "moderate") /\
  weather.determineStatus (F64.of_Z 75) = "moderate" /\
  weather.determineStatus (F64.of_ratio 751 10) = "hot" /\
  weather.determineStatus (F64.of_Z 50) = "moderate" /\
  weather.determineStatus (F64.of_ratio 499 10) = "cold".
Proof.
  split; [| split; [| split]].
  - unfold weather.determineStatus. split; [intros ->; reflexivity |].
    destruct (F64.gtb tempF (F64.of_Z 75)); [reflexivity |].
    destruct (F64.ltb tempF (F64.of_Z 50)); discriminate.
  - unfold weather.determineStatus. split.
    + intros Hlt. rewrite (below_50_not_above_75 _ Hlt), Hlt. reflexivity.
    + destruct (F64.gtb tempF (F64.of_Z 75)); [discriminate |].
      destruct (F64.ltb tempF (F64.of_Z 50)); [reflexivity | discriminate].
  - unfold weather.determineStatus. intros Hlo Hhi.
    rewrite (up_to_75_not_above_75 _ Hhi), (from_50_not_below_50 _ Hlo).
    reflexivity.
  - vm_compute. repeat split.
Qed.

Lemma determineStatus_bands_witness :
  weather.determineStatus (F64.of_Z 80) = "hot" /\
  weather.determineStatus (F64.of_Z 20) = "cold" /\
  weather.determineStatus (F64.of_Z 60) = "moderate".
Proof.
  destruct (determineStatus_bands (F64.of_Z 80)) as ((Hhot & _) & _).
  destruct (determineStatus_bands (F64.of_Z 20)) as (_ & (Hcold & _) & _).
  destruct (determineStatus_bands (F64.of_Z 60)) as (_ & _ & Hmod & _).
  split; [apply Hhot; vm_compute; reflexivity |].
  split; [apply Hcold | apply Hmod]; vm_compute; reflexivity.
Defined.

(** ** Running the state-passing code *)

Section Run_rules.
Context {P : Platform}.

Lemma runs_ret {A : Type} (a : A) (w : World) (Q : A -> World -> Prop) :
  Q a w -> runs (ret a) w Q.
Proof. intros HQ. exists a, w. split; [reflexivity | exact HQ]. Qed.

Lemma runs_bind {A B : Type} (m : M A) (k : A -> M B) (w : World)
    (Q : B -> World -> Prop) :
  runs m w (fun a w1 => runs (k a) w1 Q) -> runs (m ≫= k) w Q.
Proof.
  intros (a & w1 & Hm & b & w2 & Hk & HQ). exists b, w2. split; [| exact HQ].
  unfold mbind, M_bind, bind. rewrite Hm. exact Hk.
Qed.

Lemma runs_weaken {A : Type} (m : M A) (w : World) (Q Q' : A -> World -> Prop) :
  runs m w Q -> (forall a w', Q a w' -> Q' a w') -> runs m w Q'.
Proof. intros (a & w' & Hm & HQ) Himp. exists a, w'. split; auto. Qed.

Lemma runs_inv {A : Type} (m : M A) (w : World) (Q : A -> World -> Prop)
    (a : A) (w' : World) :
  runs m w Q -> m w = (Returns a, w') -> Q a w'.
Proof. intros (a0 & w0 & Hm & HQ) Heq. congruence. Qed.

Lemma runs_write_log (f : Logger.output -> Logger.output) (w : World)
    (Q : unit -> World -> Prop) :
  Q tt {| net := net w; sent := sent w; stdout := f (stdout w) |} ->
  runs (write_log f) w Q.
Proof. intros HQ. eexists _, _. split; [reflexivity | exact HQ]. Qed.

Lemma runs_index {A : Type} (l : list A) (x : A) (rest : list A) (w : World)
    (Q : A -> World -> Prop) :
  l = x :: rest -> Q x w -> runs (index l 0) w Q.
Proof. intros -> HQ. exists x, w. split; [reflexivity | exact HQ]. Qed.

Lemma runs_deref {A : Type} (p : option A) (x : A) (w : World)
    (Q : A -> World -> Prop) :
  p = Some x -> Q x w -> runs (deref p) w Q.
Proof. intros -> HQ. exists x, w. split; [reflexivity | exact HQ]. Qed.

(** [MakeRequest] never panics and leaves the log alone. *)
Lemma runs_MakeRequest (url userAgent : string) (w : World)
    (Q : result Body -> World -> Prop) :
  (forall r w', stdout w' = stdout w -> Q r w') ->
  runs (httpclient.MakeRequest url userAgent) w Q.
Proof.
  intros HQ. unfold httpclient.MakeRequest.
  destruct (httpclient.NewRequest http.MethodGet url) as [req | err].
  - apply runs_bind. unfold runs at 1, do_request. cbv beta zeta.
    match goal with
    | |- context [client_Do ?q (net w)] =>
      destruct (client_Do q (net w)) as [r n]
    end.
    eexists r, _. split; [reflexivity |].
    destruct r as [resp | err].
    + destruct (negb _); apply runs_ret, HQ; reflexivity.
    + apply runs_ret, HQ; reflexivity.
  - apply runs_ret, HQ; reflexivity.
Qed.

(** When the upstream answers 200, [MakeRequest] hands over the body,
    having sent exactly one request. *)
Lemma runs_MakeRequest_answers (url : string) (b : Body) (n' : Net) (w : World)
    (Q : result Body -> World -> Prop) :
  answers url (net w) b n' ->
  Q (Success b) {| net := n'; sent := sent w ++ [get url]; stdout := stdout w |} ->
  runs (httpclient.MakeRequest url weather.userAgent) w Q.
Proof.
  intros (Hurl & resp & Hdo & Hcode & Hbody) HQ.
  unfold httpclient.MakeRequest, httpclient.NewRequest. rewrite Hurl.
  apply runs_bind. unfold runs at 1, do_request. cbv beta zeta.
  fold (httpclient.request url weather.userAgent). fold (get url).
  rewrite Hdo.
  eexists (Success resp), _. split; [reflexivity |].
  rewrite Hcode. change (negb (http.StatusOK =? http.StatusOK)%Z) with false.
  cbv iota. rewrite Hbody. apply runs_ret, HQ.
Qed.

End Run_rules.

(** One step of symbolic execution. *)
Ltac run_step :=
  lazymatch goal with
  | |- runs (mbind _ _) _ _ => apply runs_bind
  | |- runs (ret _) _ _ => apply runs_ret
  | |- runs (logger.InfoWithFields _ _) _ _ => apply runs_write_log
  | |- runs (logger.ErrorWithFields _ _) _ _ => apply runs_write_log
  | |- runs (logger.WarnWithFields _ _) _ _ => apply runs_write_log
  | |- runs (logger.DebugWithFields _ _) _ _ => apply runs_write_log
  | |- runs (httpclient.MakeRequest _ _) _ _ =>
    apply runs_MakeRequest; intros ? ? ?
  | |- runs (match ?x with _ => _ end) _ _ => destruct x eqn:?
  end.

(** The log of the final world is the log of the first one, extended. *)
Ltac log_grows :=
  cbn [stdout] in *;
  unfold Logger.InfoWithFields, Logger.ErrorWithFields, Logger.WarnWithFields,
    Logger.DebugWithFields in *;
  rewrite ?log_written in *;
  repeat match goal with
         | H : stdout _ = _ |- _ => rewrite H; clear H
         end;
  rewrite <- ?app_assoc; eexists; reflexivity.

Section Any_platform.
Context {P : Platform}.
Context {D_points : JSONDecode P weather.pointsResponse}.
Context {D_stations : JSONDecode P weather.stationsResponse}.
Context {D_observation : JSONDecode P weather.observationResponse}.

Lemma getGridpoint_runs (latitude longitude : float64) (w : World) :
  runs (weather.getGridpoint latitude longitude) w
    (fun _ w' => exists l, stdout w' = stdout w ++ l).
Proof.
  unfold weather.getGridpoint. cbv zeta.
  repeat run_step; log_grows.
Qed.

(** Whatever the upstream does, [GetWeatherFromNOAA] returns; its log
    starts with the line recording the coordinates; and when it succeeds,
    status and text both derive from one Fahrenheit value. *)
Lemma GetWeatherFromNOAA_runs (latitude longitude : float64) (w : World) :
  runs (weather.GetWeatherFromNOAA latitude longitude) w
    (fun r w' =>
       (exists l, stdout w' = stdout w ++ fetching latitude longitude :: l) /\
       match r with
       | Success (status, temp) =>
         exists tempC,
           status = weather.determineStatus (fahrenheit tempC) /\
           temp = strconv.FormatFloat (fahrenheit tempC) 1 +:+ weather.degreesF
       | Failure _ => True
       end).
Proof.
  unfold weather.GetWeatherFromNOAA. cbv zeta.
  run_step. run_step. run_step.
  eapply runs_weaken; [apply getGridpoint_runs |].
  cbn [stdout]. intros g w1 [l1 Hw1].
  destruct g as [[gridId url] | err].
  2: { run_step. split; [| exact I].
       rewrite Hw1. unfold Logger.InfoWithFields.
       rewrite log_written, written_fetching, <- app_assoc.
       eexists; reflexivity. }
  assert (Hstart : exists l, stdout w1 = stdout w ++ fetching latitude longitude :: l).
  { rewrite Hw1. unfold Logger.InfoWithFields.
    rewrite log_written, written_fetching, <- app_assoc.
    eexists; reflexivity. }
  clear Hw1. destruct Hstart as [l Hw1].
  assert (Hgrow : forall w2 l2, stdout w2 = stdout w1 ++ l2 ->
            exists l', stdout w2 = stdout w ++ fetching latitude longitude :: l').
  { intros w2 l2 ->. rewrite Hw1, <- app_assoc. eexists; reflexivity. }
  repeat run_step;
    try (split; [| exact I]; eapply Hgrow; log_grows).
  - (* the guarded [index] *)
    destruct (weather.Features _) as [| first rest] eqn:Hfeatures;
      [discriminate |].
    eapply runs_index; [reflexivity |].
    repeat run_step;
      try (split; [| exact I]; eapply Hgrow; log_grows).
    destruct (weather.Value _) as [tempC |] eqn:Hvalue; [| discriminate].
    eapply runs_deref; [reflexivity |].
    repeat run_step.
    split; [eapply Hgrow; log_grows |].
    exists tempC. split; reflexivity.
Qed.

End Any_platform.

(** ** The call chain against an upstream that answers *)

Section Chain_facts.
Context {P : Platform}.
Context {D_points : JSONDecode P weather.pointsResponse}.
Context {D_stations : JSONDecode P weather.stationsResponse}.
Context {D_observation : JSONDecode P weather.observationResponse}.

Lemma getGridpoint_stepA (latitude longitude : float64)
    (pr : weather.pointsResponse) (n' : Net) (w : World)
    (Q : result (string * string) -> World -> Prop) :
  stepA latitude longitude (net w) pr n' ->
  (forall w',
      net w' = n' ->
      sent w' = sent w ++ [get (weather.pointsURL latitude longitude)] ->
      Q (Success (weather.GridId (weather.points_Properties pr),
                  weather.ObservationStations (weather.points_Properties pr))) w') ->
  runs (weather.getGridpoint latitude longitude) w Q.
Proof.
  intros (b & Hanswers & Hdecode) HQ.
  unfold weather.getGridpoint. cbv zeta.
  run_step. run_step. run_step.
  eapply runs_MakeRequest_answers; [exact Hanswers |].
  rewrite Hdecode. run_step. run_step. run_step.
  apply HQ; reflexivity.
Qed.

Lemma runs_result {A : Type} (m : M A) (w : World) (x : A) (R : World -> Prop) :
  runs m w (fun a w' => a = x /\ R w') ->
  exists w', m w = (Returns x, w') /\ R w'.
Proof. intros (a & w' & Hm & -> & HR). exists w'. split; assumption. Qed.

End Chain_facts.

(** [C6] When the station list decoded in step B is empty, the fetch fails
    with "no observation stations available", and the requests sent are the
    two of steps A and B: the observation is never fetched. *)
Theorem empty_station_list_stops_the_chain
    {P : Platform}
    {D_points : JSONDecode P weather.pointsResponse}
    {D_stations : JSONDecode P weather.stationsResponse}
    {D_observation : JSONDecode P weather.observationResponse}
    (latitude longitude : float64) (w : World)
    (pr : weather.pointsResponse) (n1 : Net)
    (sr : weather.stationsResponse) (n2 : Net) :
  stepA latitude longitude (net w) pr n1 ->
  stepB pr n1 sr n2 ->
  weather.Features sr = [] ->
  exists w',
    weather.GetWeatherFromNOAA latitude longitude w
      = (Returns (Failure "no observation stations available"), w') /\
    sent w' = sent w ++
      [get (weather.pointsURL latitude longitude);
       get (weather.ObservationStations (weather.points_Properties pr))] /\
    net w' = n2.
Proof.
  intros HA (b2 & Hanswers2 & Hdecode2) Hnil.
  apply runs_result.
  unfold weather.GetWeatherFromNOAA. cbv zeta.
  run_step. run_step. run_step.
  eapply getGridpoint_stepA; [exact HA |]. intros w1 Hnet1 Hsent1.
  run_step. eapply runs_MakeRequest_answers; [rewrite Hnet1; exact Hanswers2 |].
  rewrite Hdecode2, Hnil. cbn [length Nat.eqb].
  run_step. run_step. run_step.
  cbn [sent net]. rewrite Hsent1, <- app_assoc. repeat split.
Qed.

(** The canned upstream answers the three steps. *)
Section Mock_facts.
Context (stations : list string) (tempC : option float64).

Lemma Mock_stepA (n : nat) :
  stepA (P := Mock.platform stations tempC)
    Mock.latitude Mock.longitude n Mock.points (S n).
Proof.
  exists (Mock.Points Mock.points). split; [| reflexivity].
  split; [reflexivity |]. exists (Mock.ok (Mock.Points Mock.points)).
  split; [| split; reflexivity].
  unfold client_Do; cbn [Mock.platform]. unfold Mock.serve.
  replace (http.creq_URL (get (weather.pointsURL Mock.latitude Mock.longitude)))
    with "https://api.weather.gov/points/38.9728,-94.7120"
    by (vm_compute; reflexivity).
  reflexivity.
Qed.

Lemma Mock_stepB (n : nat) :
  stepB (P := Mock.platform stations tempC) Mock.points n
    {| weather.Features := map Mock.station stations |} (S n).
Proof.
  eexists (Mock.Stations _). split; [| reflexivity].
  split; [reflexivity |]. eexists (Mock.ok (Mock.Stations _)).
  split; [| split; reflexivity]. reflexivity.
Qed.

Lemma Mock_stepC (n : nat) :
  stepC (P := Mock.platform stations tempC) (Mock.station "KIXD") n
    (Mock.observation tempC) (S n).
Proof.
  eexists (Mock.Observation _). split; [| reflexivity].
  split; [reflexivity |]. eexists (Mock.ok (Mock.Observation _)).
  split; [| split; reflexivity]. reflexivity.
Qed.

End Mock_facts.

Lemma empty_station_list_stops_the_chain_witness :
  exists w',
    Mock.GetWeatherFromNOAA [] (Some (F64.of_Z 22))
      = (Returns (Failure "no observation stations available"), w') /\
    map http.creq_URL (sent w')
      = ["https://api.weather.gov/points/38.9728,-94.7120"; Mock.stationsURL] /\
    net w' = 2%nat.
Proof.
  destruct (empty_station_list_stops_the_chain
              (P := Mock.platform [] (Some (F64.of_Z 22)))
              Mock.latitude Mock.longitude (Mock.boot [] (Some (F64.of_Z 22)))
              Mock.points 1%nat {| weather.Features := [] |} 2%nat
              (Mock_stepA _ _ _) (Mock_stepB _ _ _) eq_refl)
    as (w' & Hrun & Hsent & Hnet).
  exists w'. split; [exact Hrun |]. split; [| exact Hnet].
  rewrite Hsent. vm_compute. reflexivity.
Defined.

(** Steps A, B and C of [GetWeatherFromNOAA] against an upstream that
    answers each of them: what is left is the part after the observation
    has been decoded. *)
Ltac run_three_steps HA Hanswers2 Hdecode2 Hfeatures Hanswers3 Hdecode3 :=
  unfold weather.GetWeatherFromNOAA; cbv zeta;
  run_step; run_step; run_step;
  (eapply getGridpoint_stepA; [exact HA |]);
  let w1 := fresh "w1" in
  let Hnet1 := fresh "Hnet1" in
  let Hsent1 := fresh "Hsent1" in
  intros w1 Hnet1 Hsent1;
  run_step;
  (eapply runs_MakeRequest_answers; [rewrite Hnet1; exact Hanswers2 |]);
  rewrite Hdecode2, Hfeatures; cbn [length Nat.eqb];
  run_step; (eapply runs_index; [reflexivity |]);
  run_step; run_step; run_step;
  (eapply runs_MakeRequest_answers; [exact Hanswers3 |]);
  rewrite Hdecode3.

(** [C7] When the observation carries a null temperature, the fetch returns
    the error "temperature data not available from NOAA observations": it
    does not panic on the nil pointer and it does not go on with a zero. *)
Theorem null_temperature_is_reported
    {P : Platform}
    {D_points : JSONDecode P weather.pointsResponse}
    {D_stations : JSONDecode P weather.stationsResponse}
    {D_observation : JSONDecode P weather.observationResponse}
    (latitude longitude : float64) (w : World)
    (pr : weather.pointsResponse) (n1 : Net)
    (sr : weather.stationsResponse) (n2 : Net)
    (first : weather.stationFeature) (rest : list weather.stationFeature)
    (obs : weather.observationResponse) (n3 : Net) :
  stepA latitude longitude (net w) pr n1 ->
  stepB pr n1 sr n2 ->
  weather.Features sr = first :: rest ->
  stepC first n2 obs n3 ->
  reading obs = None ->
  exists w',
    weather.GetWeatherFromNOAA latitude longitude w
      = (Returns (Failure "temperature data not available from NOAA observations"), w') /\
    (forall status temp,
        weather.GetWeatherFromNOAA latitude longitude w
          <> (Returns (Success (status, temp)), w')) /\
    net w' = n3.
Proof.
  intros HA (b2 & Hanswers2 & Hdecode2) Hfeatures (b3 & Hanswers3 & Hdecode3) Hnull.
  cut (exists w',
          weather.GetWeatherFromNOAA latitude longitude w
            = (Returns (Failure "temperature data not available from NOAA observations"), w')
          /\ net w' = n3).
  { intros (w' & Hrun & Hnet). exists w'. split; [exact Hrun |].
    split; [| exact Hnet]. intros status temp. rewrite Hrun. discriminate. }
  apply runs_result.
  run_three_steps HA Hanswers2 Hdecode2 Hfeatures Hanswers3 Hdecode3.
  unfold reading in Hnull. rewrite Hnull. cbn [is_nil].
  run_step. run_step. run_step.
  split; reflexivity.
Qed.

Lemma null_temperature_is_reported_witness :
  exists w',
    Mock.GetWeatherFromNOAA ["KIXD"] None
      = (Returns (Failure "temperature data not available from NOAA observations"), w') /\
    net w' = 3%nat.
Proof.
  destruct (null_temperature_is_reported
              (P := Mock.platform ["KIXD"] None)
              Mock.latitude Mock.longitude (Mock.boot ["KIXD"] None)
              Mock.points 1%nat
              {| weather.Features := [Mock.station "KIXD"] |} 2%nat
              (Mock.station "KIXD") [] (Mock.observation None) 3%nat
              (Mock_stepA _ _ _) (Mock_stepB _ _ _) eq_refl (Mock_stepC _ _ _) eq_refl)
    as (w' & Hrun & _ & Hnet).
  exists w'. split; [exact Hrun | exact Hnet].
Defined.

(** [C3] The Fahrenheit value is [tempC * 9/5 + 32] for the Celsius reading
    [tempC] of the observation: the status and the text returned are those
    of that value, and so is the [tempF] logged next to [tempC] in the last
    line, when that line can be marshalled, that is when the coordinates,
    the reading and its Fahrenheit value are all finite; otherwise the last
    line is the logger's fallback. 0 Celsius gives 32.0 and 100 Celsius
    gives 212.0. *)
Theorem fahrenheit_of_the_reading
    {P : Platform}
    {D_points : JSONDecode P weather.pointsResponse}
    {D_stations : JSONDecode P weather.stationsResponse}
    {D_observation : JSONDecode P weather.observationResponse}
    (latitude longitude : float64) (w : World)
    (pr : weather.pointsResponse) (n1 : Net)
    (sr : weather.stationsResponse) (n2 : Net)
    (first : weather.stationFeature) (rest : list weather.stationFeature)
    (obs : weather.observationResponse) (n3 : Net) (tempC : float64) :
  (stepA latitude longitude (net w) pr n1 ->
   stepB pr n1 sr n2 ->
   weather.Features sr = first :: rest ->
   stepC first n2 obs n3 ->
   reading obs = Some tempC ->
   exists w' older ln,
     weather.GetWeatherFromNOAA latitude longitude w
       = (Returns (Success (weather.determineStatus (fahrenheit tempC),
                            strconv.FormatFloat (fahrenheit tempC) 1
                            +:+ weather.degreesF)), w') /\
     stdout w' = older ++ [ln] /\
     if finite latitude && finite longitude
        && finite tempC && finite (fahrenheit tempC)
     then
       exists entry,
         ln = Logger.Json entry /\
         Logger.Fields entry !! "tempC" = Some (Logger.VFloat tempC) /\
         Logger.Fields entry !! "tempF" = Some (Logger.VFloat (fahrenheit tempC))
     else ln = Logger.Fallback "Successfully retrieved current weather data") /\
  fahrenheit (F64.of_Z 0) = F64.of_Z 32 /\
  fahrenheit (F64.of_Z 100) = F64.of_Z 212.
Proof.
  split; [| split; vm_compute; reflexivity].
  intros HA (b2 & Hanswers2 & Hdecode2) Hfeatures (b3 & Hanswers3 & Hdecode3) Hsome.
  cut (runs (weather.GetWeatherFromNOAA latitude longitude) w
         (fun r w' =>
            r = Success (weather.determineStatus (fahrenheit tempC),
                         strconv.FormatFloat (fahrenheit tempC) 1
                         +:+ weather.degreesF) /\
            exists older ln,
              stdout w' = older ++ [ln] /\
              if finite latitude && finite longitude
                 && finite tempC && finite (fahrenheit tempC)
              then
                exists entry,
                  ln = Logger.Json entry /\
                  Logger.Fields entry !! "tempC" = Some (Logger.VFloat tempC) /\
                  Logger.Fields entry !! "tempF"
                    = Some (Logger.VFloat (fahrenheit tempC))
              else
                ln = Logger.Fallback "Successfully retrieved current weather data")).
  { intros (r & w' & Hrun & -> & older & ln & Hlog).
    exists w', older, ln. split; [exact Hrun | exact Hlog]. }
  run_three_steps HA Hanswers2 Hdecode2 Hfeatures Hanswers3 Hdecode3.
  unfold reading in Hsome. rewrite Hsome. cbn [is_nil].
  run_step. eapply runs_deref; [reflexivity |].
  fold (fahrenheit tempC). generalize (fahrenheit tempC) as tempF. intros tempF.
  run_step. run_step. run_step.
  split; [reflexivity |].
  cbn [stdout]. unfold Logger.InfoWithFields at 1. rewrite log_written.
  eexists _, _. split; [reflexivity |].
  destruct (finite latitude) eqn:Hlat; cbn [andb];
    [| apply (written_Fallback _ _ _ "latitude" (Logger.VFloat latitude));
       [apply lookup_insert_eq | exact Hlat]].
  destruct (finite longitude) eqn:Hlon; cbn [andb];
    [| apply (written_Fallback _ _ _ "longitude" (Logger.VFloat longitude));
       [rewrite !lookup_insert_ne by discriminate; apply lookup_insert_eq
       | exact Hlon]].
  destruct (finite tempC) eqn:HtempC; cbn [andb];
    [| apply (written_Fallback _ _ _ "tempC" (Logger.VFloat tempC));
       [rewrite !lookup_insert_ne by discriminate; apply lookup_insert_eq
       | exact HtempC]].
  destruct (finite tempF) eqn:HtempF;
    [| apply (written_Fallback _ _ _ "tempF" (Logger.VFloat tempF));
       [rewrite !lookup_insert_ne by discriminate; apply lookup_insert_eq
       | exact HtempF]].
  rewrite written_Json by all_encode.
  eexists. split; [reflexivity |]. cbn [Logger.Fields]. split.
  - rewrite !lookup_insert_ne by discriminate. apply lookup_insert_eq.
  - rewrite !lookup_insert_ne by discriminate. apply lookup_insert_eq.
Qed.

Lemma fahrenheit_of_the_reading_witness :
  exists w',
    Mock.GetWeatherFromNOAA ["KIXD"] (Some (F64.of_Z 100))
      = (Returns (Success ("hot", "212.0" +:+ weather.degreesF)), w').
Proof.
  destruct (fahrenheit_of_the_reading
              (P := Mock.platform ["KIXD"] (Some (F64.of_Z 100)))
              Mock.latitude Mock.longitude (Mock.boot ["KIXD"] (Some (F64.of_Z 100)))
              Mock.points 1%nat
              {| weather.Features := [Mock.station "KIXD"] |} 2%nat
              (Mock.station "KIXD") [] (Mock.observation (Some (F64.of_Z 100)))
              3%nat (F64.of_Z 100))
    as (Hchain & _).
  destruct (Hchain (Mock_stepA _ _ _) (Mock_stepB _ _ _) eq_refl
                   (Mock_stepC _ _ _) eq_refl)
    as (w' & _ & _ & Hrun & _).
  exists w'. unfold Mock.GetWeatherFromNOAA. rewrite Hrun.
  apply (f_equal (fun r => (Returns (Success r), w'))).
  vm_compute. reflexivity.
Defined.

(** A run is known by its outcome and its final world. *)
Lemma run_by_outcome {A W : Type} (run : A * W) (a : A) :
  fst run = a -> run = (a, snd run).
Proof. destruct run. cbn [fst snd]. intros ->. reflexivity. Qed.

(** [C4] A fetch that succeeds returns one of the three statuses; it is never
    empty. *)
Theorem success_status_is_a_band
    {P : Platform}
    {D_points : JSONDecode P weather.pointsResponse}
    {D_stations : JSONDecode P weather.stationsResponse}
    {D_observation : JSONDecode P weather.observationResponse}
    (latitude longitude : float64) (w w' : World) (status temp : string) :
  weather.GetWeatherFromNOAA latitude longitude w
    = (Returns (Success (status, temp)), w') ->
  (status = "hot" \/ status = "cold" \/ status = "moderate") /\ status <> "".
Proof.
  intros Hrun.
  destruct (runs_inv _ _ _ _ _ (GetWeatherFromNOAA_runs latitude longitude w) Hrun)
    as (_ & tempC & -> & _).
  destruct (determineStatus_cases (fahrenheit tempC)) as [-> | [-> | ->]];
    (split; [tauto | discriminate]).
Qed.

Lemma success_status_is_a_band_witness :
  ("moderate" = "hot" \/ "moderate" = "cold" \/ "moderate" = "moderate")
  /\ "moderate" <> "".
Proof.
  apply (success_status_is_a_band
           (P := Mock.platform ["KIXD"] (Some (F64.of_Z 22)))
           Mock.latitude Mock.longitude (Mock.boot ["KIXD"] (Some (F64.of_Z 22)))
           (snd (Mock.GetWeatherFromNOAA ["KIXD"] (Some (F64.of_Z 22))))
           "moderate" ("71.6" +:+ weather.degreesF)).
  apply (run_by_outcome (Mock.GetWeatherFromNOAA ["KIXD"] (Some (F64.of_Z 22)))).
  vm_compute. reflexivity.
Defined.

(** The end-to-end example: grid EAX, the one station KIXD, 22.0 Celsius. *)

(** [C2], as stated, fails: the status of the example is not "hot". *)
Lemma example_status_is_not_hot :
  ~ exists temp w',
      Mock.GetWeatherFromNOAA ["KIXD"] (Some (F64.of_Z 22))
        = (Returns (Success ("hot", temp)), w').
Proof.
  intros (temp & w' & Hrun).
  apply (f_equal fst) in Hrun. vm_compute in Hrun. discriminate Hrun.
Qed.

(** [C2], amended: the fetch of the example succeeds with status "moderate"
    (71.6 is not above 75) and a text that starts with the number "71.6" and
    ends with the degree sign and F; the three requests go out in order. *)
Theorem example_end_to_end :
  exists temp unit_prefix w',
    Mock.GetWeatherFromNOAA ["KIXD"] (Some (F64.of_Z 22))
      = (Returns (Success ("moderate", temp)), w') /\
    temp = "71.6" +:+ unit_prefix +:+ spec_degreesF /\
    map http.creq_URL (sent w')
      = ["https://api.weather.gov/points/38.9728,-94.7120";
         "https://api.weather.gov/gridpoints/EAX/40,48/stations";
         "https://api.weather.gov/stations/KIXD/observations/latest"].
Proof.
  exists ("71.6" +:+ weather.degreesF), (string_of_list_byte [Byte.xc3; Byte.x82]),
    (snd (Mock.GetWeatherFromNOAA ["KIXD"] (Some (F64.of_Z 22)))).
  split; [apply run_by_outcome; vm_compute; reflexivity |].
  split; vm_compute; reflexivity.
Qed.

(** ** The handler *)

Section Handler_facts.
Context {P : Platform}.
Context {D_points : JSONDecode P weather.pointsResponse}.
Context {D_stations : JSONDecode P weather.stationsResponse}.
Context {D_observation : JSONDecode P weather.observationResponse}.

(** The handler up to the range checks, for such a request. *)
Lemma WeatherHandler_parsed (r : http.Request) (latitude longitude : float64)
    (w : World) (Q : api.reply -> World -> Prop) :
  parsed r latitude longitude ->
  (forall w1,
      sent w1 = sent w -> net w1 = net w ->
      (exists l, stdout w1 = stdout w ++ l) ->
      if F64.ltb latitude (F64.of_Z (-90)) || F64.gtb latitude (F64.of_Z 90) then
        Q (api.http_Error "latitude must be between -90 and 90" 400) w1
      else if F64.ltb longitude (F64.of_Z (-180)) || F64.gtb longitude (F64.of_Z 180) then
        Q (api.http_Error "longitude must be between -180 and 180" 400) w1
      else
        runs (weather.GetWeatherFromNOAA latitude longitude) w1
          (fun res w2 =>
             forall w3,
               (exists l, stdout w3 = stdout w2 ++ l) ->
               match res with
               | Failure _ =>
                 Q (api.http_Error "Failed to fetch weather data" 500) w3
               | Success (status, temp) =>
                 forall header,
                   Q (api.json_Encode header
                        {| api.Status := status; api.Temp := temp |}) w3
               end)) ->
  runs (api.WeatherHandler r) w Q.
Proof.
  intros (Hget & Hlat & Hlon & Hplat & Hplon) HQ.
  unfold api.WeatherHandler. cbv zeta.
  run_step. run_step.
  rewrite Hget. change (negb (http.MethodGet =? http.MethodGet)%string) with false.
  cbv iota.
  rewrite (proj2 (String.eqb_neq _ _) Hlat), (proj2 (String.eqb_neq _ _) Hlon).
  cbn [orb]. rewrite Hplat, Hplon.
  destruct (F64.ltb latitude _ || F64.gtb latitude _) eqn:Hclat.
  { run_step. run_step. run_step.
    match goal with
    | |- Q _ ?w1 => specialize (HQ w1 eq_refl eq_refl ltac:(log_grows))
    end.
    exact HQ. }
  destruct (F64.ltb longitude _ || F64.gtb longitude _) eqn:Hclon.
  { run_step. run_step. run_step.
    match goal with
    | |- Q _ ?w1 => specialize (HQ w1 eq_refl eq_refl ltac:(log_grows))
    end.
    exact HQ. }
  run_step.
  match goal with
  | |- runs _ ?w1 _ => specialize (HQ w1 eq_refl eq_refl ltac:(log_grows))
  end.
  eapply runs_weaken; [exact HQ |].
  intros [[status temp] | err] w2 Hrest; cbv beta iota zeta.
  - run_step. run_step. run_step. apply Hrest. log_grows.
  - run_step. run_step. run_step. apply Hrest. log_grows.
Qed.

End Handler_facts.

(** [C9] A request whose method is not GET is answered 405 "Method not
    allowed", whatever its query holds, and no upstream call is made. *)
Theorem method_not_allowed
    {P : Platform}
    {D_points : JSONDecode P weather.pointsResponse}
    {D_stations : JSONDecode P weather.stationsResponse}
    {D_observation : JSONDecode P weather.observationResponse}
    (r : http.Request) (w : World) :
  http.Method r <> "GET" ->
  exists w',
    api.WeatherHandler r w = (Returns (api.http_Error "Method not allowed" 405), w') /\
    no_upstream_call w w'.
Proof.
  intros Hmethod. apply runs_result.
  unfold api.WeatherHandler. cbv zeta.
  run_step. run_step.
  unfold http.MethodGet. rewrite (proj2 (String.eqb_neq _ _) Hmethod).
  cbn [negb]. run_step. run_step. run_step.
  split; [reflexivity | split; reflexivity].
Qed.

Lemma method_not_allowed_witness :
  exists w',
    Mock.WeatherHandler ["KIXD"] (Some (F64.of_Z 22))
      (Mock.request "POST" "38.9728" "-94.712")
      = (Returns (api.http_Error "Method not allowed" 405), w') /\
    sent w' = [].
Proof.
  destruct (method_not_allowed
              (P := Mock.platform ["KIXD"] (Some (F64.of_Z 22)))
              (Mock.request "POST" "38.9728" "-94.712")
              (Mock.boot ["KIXD"] (Some (F64.of_Z 22))))
    as (w' & Hrun & Hsent & _).
  - discriminate.
  - exists w'. split; [exact Hrun | exact Hsent].
Defined.

(** [C8], as stated, fails: latitude 91 parses and lies above 90, yet with a
    longitude that does not parse the answer is "invalid longitude
    parameter", not the latitude range message. *)
Lemma latitude_out_of_range_longitude_unparsable :
  ParseFloat (Platform := Mock.platform ["KIXD"] (Some (F64.of_Z 22))) "91"
    = Success (F64.of_Z 91) /\
  F64.gtb (F64.of_Z 91) (F64.of_Z 90) = true /\
  fst (Mock.WeatherHandler ["KIXD"] (Some (F64.of_Z 22))
         (Mock.request "GET" "91" "abc"))
    = Returns (api.http_Error "invalid longitude parameter" 400) /\
  fst (Mock.WeatherHandler ["KIXD"] (Some (F64.of_Z 22))
         (Mock.request "GET" "91" "abc"))
    <> Returns (api.http_Error "latitude must be between -90 and 90" 400).
Proof.
  assert (Hrun : fst (Mock.WeatherHandler ["KIXD"] (Some (F64.of_Z 22))
                        (Mock.request "GET" "91" "abc"))
                 = Returns (api.http_Error "invalid longitude parameter" 400))
    by (vm_compute; reflexivity).
  split; [vm_compute; reflexivity |].
  split; [vm_compute; reflexivity |].
  split; [exact Hrun |]. rewrite Hrun. discriminate.
Qed.

(** [C8], amended: for a GET request whose two parameters are present and
    both parse, a latitude below -90 or above 90 is answered 400 "latitude
    must be between -90 and 90", whatever the longitude; failing that, a
    longitude below -180 or above 180 is answered 400 "longitude must be
    between -180 and 180". Neither makes an upstream call. *)
Theorem range_validation
    {P : Platform}
    {D_points : JSONDecode P weather.pointsResponse}
    {D_stations : JSONDecode P weather.stationsResponse}
    {D_observation : JSONDecode P weather.observationResponse}
    (r : http.Request) (w : World) (latitude longitude : float64) :
  parsed r latitude longitude ->
  (F64.ltb latitude (F64.of_Z (-90)) = true \/
   F64.gtb latitude (F64.of_Z 90) = true ->
   exists w',
     api.WeatherHandler r w
       = (Returns (api.http_Error "latitude must be between -90 and 90" 400), w') /\
     no_upstream_call w w') /\
  (F64.ltb latitude (F64.of_Z (-90)) = false ->
   F64.gtb latitude (F64.of_Z 90) = false ->
   F64.ltb longitude (F64.of_Z (-180)) = true \/
   F64.gtb longitude (F64.of_Z 180) = true ->
   exists w',
     api.WeatherHandler r w
       = (Returns (api.http_Error "longitude must be between -180 and 180" 400), w') /\
     no_upstream_call w w').
Proof.
  intros Hparsed. split.
  - intros Hout. apply runs_result.
    apply (WeatherHandler_parsed r latitude longitude w _ Hparsed).
    intros w1 Hsent Hnet _.
    replace (F64.ltb latitude (F64.of_Z (-90)) || F64.gtb latitude (F64.of_Z 90))
      with true by (destruct Hout as [-> | ->]; [| rewrite orb_true_r]; reflexivity).
    split; [reflexivity | split; assumption].
  - intros Hlo Hhi Hout. apply runs_result.
    apply (WeatherHandler_parsed r latitude longitude w _ Hparsed).
    intros w1 Hsent Hnet _. rewrite Hlo, Hhi. cbn [orb].
    replace (F64.ltb longitude (F64.of_Z (-180)) || F64.gtb longitude (F64.of_Z 180))
      with true by (destruct Hout as [-> | ->]; [| rewrite orb_true_r]; reflexivity).
    split; [reflexivity | split; assumption].
Qed.

(** The canned requests are GET requests whose parameters parse. *)
Lemma Mock_parsed (stations : list string) (tempC : option float64)
    (latStr lonStr : string) (latitude longitude : float64) :
  (latStr =? "")%string = false ->
  (lonStr =? "")%string = false ->
  Mock.parseFloat latStr = Success latitude ->
  Mock.parseFloat lonStr = Success longitude ->
  parsed (P := Mock.platform stations tempC)
    (Mock.request "GET" latStr lonStr) latitude longitude.
Proof.
  intros Hlat Hlon Hplat Hplon.
  assert (Hglat : http.Get (http.URL_Query (Mock.request "GET" latStr lonStr))
                    "latitude" = latStr).
  { unfold Mock.request, http.Get. cbv zeta. cbn [http.URL_Query].
    rewrite Hlat, Hlon.
    rewrite lookup_insert_ne by discriminate. rewrite lookup_insert_eq.
    reflexivity. }
  assert (Hglon : http.Get (http.URL_Query (Mock.request "GET" latStr lonStr))
                    "longitude" = lonStr).
  { unfold Mock.request, http.Get. cbv zeta. cbn [http.URL_Query].
    rewrite Hlat, Hlon. rewrite lookup_insert_eq. reflexivity. }
  unfold parsed. rewrite Hglat, Hglon.
  split; [reflexivity |].
  split; [apply String.eqb_neq; exact Hlat |].
  split; [apply String.eqb_neq; exact Hlon |].
  split; assumption.
Qed.

Lemma range_validation_witness :
  (exists w',
      Mock.WeatherHandler ["KIXD"] (Some (F64.of_Z 22)) (Mock.request "GET" "91" "181")
        = (Returns (api.http_Error "latitude must be between -90 and 90" 400), w') /\
      sent w' = []) /\
  (exists w',
      Mock.WeatherHandler ["KIXD"] (Some (F64.of_Z 22)) (Mock.request "GET" "-90" "-200")
        = (Returns (api.http_Error "longitude must be between -180 and 180" 400), w') /\
      sent w' = []).
Proof.
  split.
  - destruct (range_validation
                (P := Mock.platform ["KIXD"] (Some (F64.of_Z 22)))
                (Mock.request "GET" "91" "181")
                (Mock.boot ["KIXD"] (Some (F64.of_Z 22)))
                (F64.of_Z 91) (F64.of_Z 181)) as (Hlat & _).
    + apply Mock_parsed; vm_compute; reflexivity.
    + destruct Hlat as (w' & Hrun & Hsent & _).
      * right. vm_compute. reflexivity.
      * exists w'. split; [exact Hrun | exact Hsent].
  - destruct (range_validation
                (P := Mock.platform ["KIXD"] (Some (F64.of_Z 22)))
                (Mock.request "GET" "-90" "-200")
                (Mock.boot ["KIXD"] (Some (F64.of_Z 22)))
                (F64.of_Z (-90)) (F64.of_Z (-200))) as (_ & Hlon).
    + apply Mock_parsed; vm_compute; reflexivity.
    + destruct Hlon as (w' & Hrun & Hsent & _).
      * vm_compute. reflexivity.
      * vm_compute. reflexivity.
      * left. vm_compute. reflexivity.
      * exists w'. split; [exact Hrun | exact Hsent].
Defined.




(** ** The formatted number *)

Section Format_facts.

Lemma all_digits_app (a b : string) :
  all_digits (a +:+ b) = all_digits a && all_digits b.
Proof.
  induction a as [| c a IH]; [reflexivity |].
  simpl. rewrite IH. apply andb_assoc.
Qed.

Lemma length_app (a b : string) :
  String.length (a +:+ b) = (String.length a + String.length b)%nat.
Proof.
  induction a as [| c a IH]; [reflexivity |].
  simpl. rewrite IH. reflexivity.
Qed.

Lemma all_digits_zeros (n : nat) : all_digits (strconv.zeros n) = true.
Proof. induction n as [| n IH]; [reflexivity | exact IH]. Qed.

Lemma length_zeros (n : nat) : String.length (strconv.zeros n) = n.
Proof. induction n as [| n IH]; [reflexivity |]. cbn. rewrite IH. reflexivity. Qed.

Lemma all_digits_uint (d : Decimal.uint) :
  all_digits (NilEmpty.string_of_uint d) = true.
Proof. induction d; [reflexivity | exact IHd ..]. Qed.

Lemma utoa_digits (n : N) :
  all_digits (strconv.utoa n) = true /\ (1 <= String.length (strconv.utoa n))%nat.
Proof.
  unfold strconv.utoa, NilZero.string_of_uint.
  destruct (N.to_uint n) as [| d | d | d | d | d | d | d | d | d | d] eqn:Hd;
    (split; [| cbn [NilEmpty.string_of_uint String.length]; lia]);
    try reflexivity; exact (all_digits_uint d).
Qed.

(** A string of [k + 1] digits, cut before its last one. *)
Lemma digits_point_digit_cut (s : string) :
  forall (k : nat) (seen : bool),
    String.length s = S k ->
    all_digits s = true ->
    digits_point_digit (substring 0 k s +:+ "." +:+ substring k 1 s) seen
      = seen || (0 <? k)%nat.
Proof.
  induction s as [| c s IH]; intros k seen Hlen Hdigits; [discriminate |].
  cbn [String.length] in Hlen. injection Hlen as Hlen.
  cbn [all_digits] in Hdigits. apply andb_true_iff in Hdigits as [Hc Hs].
  destruct k as [| k].
  - destruct s; [| discriminate].
    change (seen && is_digit c = seen || false).
    rewrite Hc, orb_false_r. apply andb_true_r.
  - change (digits_point_digit
              (String c (substring 0 k s +:+ "." +:+ substring k 1 s)) seen
            = seen || true).
    cbn [digits_point_digit]. rewrite Hc, (IH k true Hlen Hs).
    rewrite orb_true_r. reflexivity.
Qed.

Lemma fixed_one_decimal (n : N) :
  digits_point_digit (strconv.fixed n 1) false = true.
Proof.
  unfold strconv.fixed. cbv zeta.
  destruct (utoa_digits n) as [Hdigits Hlen].
  set (s := strconv.zeros (2 - String.length (strconv.utoa n)) +:+ strconv.utoa n).
  assert (Hs : all_digits s = true).
  { unfold s. rewrite all_digits_app, all_digits_zeros, Hdigits. reflexivity. }
  assert (Hl : (2 <= String.length s)%nat).
  { unfold s. rewrite length_app, length_zeros. lia. }
  destruct (String.length s) as [| [| k]] eqn:Hk; [lia | lia |].
  replace (S (S k) - 1)%nat with (S k) by lia.
  rewrite (digits_point_digit_cut s (S k) false Hk Hs). reflexivity.
Qed.

(** A finite value formats with one decimal; the others by name. *)
Lemma FormatFloat_one_decimal (f : float64) :
  one_decimal (strconv.FormatFloat f 1) = true \/
  strconv.FormatFloat f 1 = "NaN" \/
  strconv.FormatFloat f 1 = "+Inf" \/
  strconv.FormatFloat f 1 = "-Inf".
Proof.
  assert (Hfixed : forall (s : bool) (n : N),
             one_decimal ((if s then "-" else "") +:+ strconv.fixed n 1) = true).
  { intros s n. pose proof (fixed_one_decimal n) as Hn.
    destruct s; [exact Hn |].
    change ("" +:+ strconv.fixed n 1) with (strconv.fixed n 1).
    destruct (strconv.fixed n 1) as [| c rest]; [discriminate Hn |].
    destruct c as [[] [] [] [] [] [] [] []];
      first [exact Hn | cbv in Hn; discriminate Hn]. }
  destruct f as [s | [] | | s m e]; cbn [strconv.FormatFloat]; auto.
Qed.

End Format_facts.

(** On every successful fetch the text is a number, with one decimal unless
    the Fahrenheit value is not finite, followed by the literal [degreesF]. *)
Lemma success_text_shape
    {P : Platform}
    {D_points : JSONDecode P weather.pointsResponse}
    {D_stations : JSONDecode P weather.stationsResponse}
    {D_observation : JSONDecode P weather.observationResponse}
    (latitude longitude : float64) (w w' : World) (status temp : string) :
  weather.GetWeatherFromNOAA latitude longitude w
    = (Returns (Success (status, temp)), w') ->
  exists number,
    temp = number +:+ weather.degreesF /\
    (one_decimal number = true \/
     number = "NaN" \/ number = "+Inf" \/ number = "-Inf").
Proof.
  intros Hrun.
  destruct (runs_inv _ _ _ _ _ (GetWeatherFromNOAA_runs latitude longitude w) Hrun)
    as (_ & tempC & _ & ->).
  exists (strconv.FormatFloat (fahrenheit tempC) 1).
  split; [reflexivity | apply FormatFloat_one_decimal].
Qed.

(** A reading of 1e308 Celsius is a float64, but nine times it is not: the
    number is then "+Inf". *)
Example overflowing_reading :
  fst (Mock.GetWeatherFromNOAA ["KIXD"] (Some (F64.of_Z (10 ^ 308))))
    = Returns (Success ("hot", "+Inf" +:+ weather.degreesF)).
Proof. vm_compute. reflexivity. Qed.

(** [C5] On a reading of 22.4 Celsius the text returned is "72.3", then the
    four bytes C3 82 C2 B0, then "F": two characters, U+00C2 and U+00B0,
    stand where the single degree sign U+00B0 belongs. *)
Theorem formatted_temperature_bytes :
  exists temp w',
    Mock.GetWeatherFromNOAA ["KIXD"] (Some (F64.of_ratio 224 10))
      = (Returns (Success ("moderate", temp)), w') /\
    list_byte_of_string temp
      = [Byte.x37; Byte.x32; Byte.x2e; Byte.x33;
         Byte.xc3; Byte.x82; Byte.xc2; Byte.xb0; Byte.x46] /\
    temp <> "72.3" +:+ spec_degreesF.
Proof.
  exists ("72.3" +:+ weather.degreesF),
    (snd (Mock.GetWeatherFromNOAA ["KIXD"] (Some (F64.of_ratio 224 10)))).
  split; [apply run_by_outcome; vm_compute; reflexivity |].
  split; [vm_compute; reflexivity |].
  intros Heq. apply (f_equal String.length) in Heq.
  vm_compute in Heq. discriminate Heq.
Qed.

(** * Further properties *)

(** ** MakeRequest *)

Section MakeRequest_facts.
Context {P : Platform}.

Lemma request_well_formed (url userAgent : string) :
  well_formed userAgent (httpclient.request url userAgent) /\
  http.creq_URL (httpclient.request url userAgent) = url.
Proof.
  split; [| reflexivity]. unfold well_formed, httpclient.request, http.Header_Set.
  cbn [http.creq_Method http.creq_Header]. split; [reflexivity |].
  split; [rewrite lookup_insert_ne by discriminate; apply lookup_insert_eq |].
  split; [apply lookup_insert_eq |].
  intros key Hua Haccept.
  rewrite lookup_insert_ne by congruence. rewrite lookup_insert_ne by congruence.
  apply lookup_empty.
Qed.

(** What [MakeRequest] does, case by case. *)
Lemma MakeRequest_cases (url userAgent : string) (w : World) :
  (exists e,
      url_error url = Some e /\
      httpclient.MakeRequest url userAgent w
        = (Returns (Failure ("failed to create request: " +:+ e)), w)) \/
  (url_error url = None /\
   exists x n',
     client_Do (httpclient.request url userAgent) (net w) = (x, n') /\
     httpclient.MakeRequest url userAgent w
       = (Returns
            match x with
            | Failure e => Failure ("failed to make request: " +:+ e)
            | Success resp =>
              if (http.StatusCode resp =? 200)%Z then Success (http.RespBody resp)
              else Failure ("API returned status: "
                            +:+ strconv.Itoa (http.StatusCode resp)
                            +:+ " " +:+ http.Status resp)
            end,
          {| net := n';
             sent := sent w ++ [httpclient.request url userAgent];
             stdout := stdout w |})).
Proof.
  unfold httpclient.MakeRequest, httpclient.NewRequest.
  destruct (url_error url) as [e |].
  - left. exists e. split; reflexivity.
  - right. split; [reflexivity |].
    unfold mbind, M_bind, bind, do_request. cbv beta zeta.
    fold (httpclient.request url userAgent).
    destruct (client_Do (httpclient.request url userAgent) (net w)) as [x n'].
    exists x, n'. split; [reflexivity |].
    destruct x as [resp | e]; [| reflexivity].
    unfold http.StatusOK. destruct (http.StatusCode resp =? 200)%Z; reflexivity.
Qed.

End MakeRequest_facts.

(** [X1] [MakeRequest] hands over a body only when the upstream answered 200 to
    the one request it sent, a GET for the URL carrying the two headers; the
    log is not touched. *)
Theorem MakeRequest_body_only_on_200
    {P : Platform} (url userAgent : string) (w w' : World) (b : Body) :
  httpclient.MakeRequest url userAgent w = (Returns (Success b), w') ->
  exists req resp,
    well_formed userAgent req /\
    http.creq_URL req = url /\
    client_Do req (net w) = (Success resp, net w') /\
    http.StatusCode resp = 200%Z /\
    http.RespBody resp = b /\
    sent w' = sent w ++ [req] /\
    stdout w' = stdout w.
Proof.
  intros Hrun.
  destruct (MakeRequest_cases url userAgent w)
    as [(e & _ & Hcase) | (_ & x & n' & Hdo & Hcase)];
    rewrite Hcase in Hrun; [discriminate Hrun |].
  destruct x as [resp | e]; [| discriminate Hrun].
  destruct (Z.eqb_spec (http.StatusCode resp) 200) as [Hcode | _];
    [| discriminate Hrun].
  injection Hrun as Hb Hw. subst w'. cbn [net sent stdout].
  exists (httpclient.request url userAgent), resp.
  destruct (request_well_formed url userAgent) as [Hwf Hurl].
  repeat split; try assumption; try reflexivity; apply Hwf.
Qed.

(** [X2] Any status but 200 is an error that quotes the code and the status
    text; the body is dropped and one request has been sent. *)
Theorem MakeRequest_rejects_other_statuses
    {P : Platform} (url userAgent : string) (w : World)
    (resp : http.Response Body) (n' : Net) :
  url_error url = None ->
  client_Do (httpclient.request url userAgent) (net w) = (Success resp, n') ->
  http.StatusCode resp <> 200%Z ->
  httpclient.MakeRequest url userAgent w
    = (Returns (Failure ("API returned status: "
                         +:+ strconv.Itoa (http.StatusCode resp)
                         +:+ " " +:+ http.Status resp)),
       {| net := n';
          sent := sent w ++ [httpclient.request url userAgent];
          stdout := stdout w |}).
Proof.
  intros Hurl Hdo Hcode.
  destruct (MakeRequest_cases url userAgent w)
    as [(e & Hsome & _) | (_ & x & n0 & Hdo0 & Hcase)]; [congruence |].
  rewrite Hdo in Hdo0. injection Hdo0 as <- <-. rewrite Hcase.
  destruct (Z.eqb_spec (http.StatusCode resp) 200); [contradiction | reflexivity].
Qed.

(** [X3] A URL that [http.NewRequest] turns down is reported as "failed to create
    request" and nothing is sent; a transport failure is reported as "failed
    to make request" after the one attempt. *)
Theorem MakeRequest_wraps_early_failures
    {P : Platform} (url userAgent : string) (w : World) (e : error) :
  (url_error url = Some e ->
   httpclient.MakeRequest url userAgent w
     = (Returns (Failure ("failed to create request: " +:+ e)), w)) /\
  (forall n',
      url_error url = None ->
      client_Do (httpclient.request url userAgent) (net w) = (Failure e, n') ->
      httpclient.MakeRequest url userAgent w
        = (Returns (Failure ("failed to make request: " +:+ e)),
           {| net := n';
              sent := sent w ++ [httpclient.request url userAgent];
              stdout := stdout w |})).
Proof.
  split.
  - intros Hurl.
    destruct (MakeRequest_cases url userAgent w)
      as [(e0 & Hsome & Hcase) | (Hnone & _)]; [| congruence].
    rewrite Hcase. congruence.
  - intros n' Hurl Hdo.
    destruct (MakeRequest_cases url userAgent w)
      as [(e0 & Hsome & _) | (_ & x & n0 & Hdo0 & Hcase)]; [congruence |].
    rewrite Hdo in Hdo0. injection Hdo0 as <- <-. exact Hcase.
Qed.

(** [X4] [MakeRequest] looks at the network only: from two worlds with the same
    network it returns the same result and leaves the same network; it
    appends at most one request and leaves the log as it was. *)
Theorem MakeRequest_depends_on_the_network_only
    {P : Platform} (url userAgent : string) (w1 w2 : World) :
  net w1 = net w2 ->
  exists r n' reqs,
    (length reqs <= 1)%nat /\
    httpclient.MakeRequest url userAgent w1
      = (Returns r, {| net := n'; sent := sent w1 ++ reqs; stdout := stdout w1 |}) /\
    httpclient.MakeRequest url userAgent w2
      = (Returns r, {| net := n'; sent := sent w2 ++ reqs; stdout := stdout w2 |}).
Proof.
  intros Hnet.
  destruct (MakeRequest_cases url userAgent w1)
    as [(e1 & Hurl1 & Hcase1) | (Hurl1 & x1 & n1 & Hdo1 & Hcase1)];
    destruct (MakeRequest_cases url userAgent w2)
      as [(e2 & Hurl2 & Hcase2) | (Hurl2 & x2 & n2 & Hdo2 & Hcase2)];
    try congruence.
  - exists (Failure ("failed to create request: " +:+ e1)), (net w1), [].
    split; [cbn; lia |]. rewrite Hcase1, Hcase2, !app_nil_r.
    assert (e2 = e1) as -> by congruence.
    destruct w1 as [n1 s1 o1], w2 as [n2 s2 o2]. cbn [net sent stdout] in *.
    subst n2. split; reflexivity.
  - rewrite Hnet, Hdo2 in Hdo1. injection Hdo1 as <- <-.
    eexists _, n2, [httpclient.request url userAgent].
    split; [cbn; lia |]. rewrite Hcase1, Hcase2. split; reflexivity.
Qed.

(** ** The call chain against an upstream that fails *)

Section Failure_rules.
Context {P : Platform}.

(** A request that fails in network state [net w] fails from [w]. *)
Lemma runs_MakeRequest_fails (url : string) (err : error) (n' : Net) (w : World)
    (Q : result Body -> World -> Prop) :
  request_fails url (net w) err n' ->
  (forall w',
      net w' = n' -> stdout w' = stdout w ->
      sent w' = sent w \/ sent w' = sent w ++ [get url] ->
      Q (Failure err) w') ->
  runs (httpclient.MakeRequest url weather.userAgent) w Q.
Proof.
  intros (w0 & w0' & Hnet & Hrun & Hnet') HQ.
  destruct (MakeRequest_cases url weather.userAgent w0)
    as [(e0 & Hurl0 & Hcase0) | (Hurl0 & x0 & n0 & Hdo0 & Hcase0)];
    destruct (MakeRequest_cases url weather.userAgent w)
      as [(e & Hurl & Hcase) | (Hurl & x & n & Hdo & Hcase)];
    try congruence.
  - rewrite Hcase0 in Hrun. injection Hrun as Herr Hw0. subst w0'.
    assert (e = e0) as -> by congruence.
    eexists _, _. split; [exact Hcase |]. rewrite Herr.
    apply HQ; [congruence | reflexivity | left; reflexivity].
  - rewrite Hnet, Hdo in Hdo0. injection Hdo0 as <- <-.
    rewrite Hcase0 in Hrun. injection Hrun as Herr Hw0. subst w0'.
    cbn [net] in Hnet'.
    eexists _, _. split; [exact Hcase |]. rewrite Herr.
    apply HQ; [exact Hnet' | reflexivity | right; reflexivity].
Qed.

(** Every way [MakeRequest] can end, for the service's user agent. *)
Lemma runs_MakeRequest_split (url : string) (w : World)
    (Q : result Body -> World -> Prop) :
  (forall b n',
      answers url (net w) b n' ->
      Q (Success b) {| net := n'; sent := sent w ++ [get url]; stdout := stdout w |}) ->
  (forall err w',
      request_fails url (net w) err (net w') ->
      stdout w' = stdout w ->
      sent w' = sent w \/ sent w' = sent w ++ [get url] ->
      Q (Failure err) w') ->
  runs (httpclient.MakeRequest url weather.userAgent) w Q.
Proof.
  intros Hok Hfail.
  destruct (MakeRequest_cases url weather.userAgent w)
    as [(e & Hurl & Hcase) | (Hurl & x & n' & Hdo & Hcase)].
  - eexists _, _. split; [exact Hcase |].
    apply Hfail; [| reflexivity | left; reflexivity].
    exists w, w. repeat split. exact Hcase.
  - eexists _, _. split; [exact Hcase |].
    destruct x as [resp | e].
    + destruct (Z.eqb_spec (http.StatusCode resp) 200) as [Hcode | Hcode].
      * apply Hok. split; [exact Hurl |]. exists resp. repeat split; assumption.
      * apply Hfail; [| reflexivity | right; reflexivity].
        eexists w, _. split; [reflexivity |]. split; [| reflexivity].
        rewrite Hcase. destruct (Z.eqb_spec (http.StatusCode resp) 200);
          [contradiction | reflexivity].
    + apply Hfail; [| reflexivity | right; reflexivity].
      eexists w, _. split; [reflexivity |]. split; [exact Hcase | reflexivity].
Qed.

End Failure_rules.

Section Chain_failures.
Context {P : Platform}.
Context {D_points : JSONDecode P weather.pointsResponse}.
Context {D_stations : JSONDecode P weather.stationsResponse}.
Context {D_observation : JSONDecode P weather.observationResponse}.

Lemma getGridpoint_request_fails (latitude longitude : float64)
    (err : error) (n' : Net) (w : World)
    (Q : result (string * string) -> World -> Prop) :
  request_fails (weather.pointsURL latitude longitude) (net w) err n' ->
  (forall w',
      net w' = n' ->
      sent w' = sent w \/
      sent w' = sent w ++ [get (weather.pointsURL latitude longitude)] ->
      Q (Failure ("failed to get gridpoint from NOAA points API: " +:+ err)) w') ->
  runs (weather.getGridpoint latitude longitude) w Q.
Proof.
  intros Hfails HQ. unfold weather.getGridpoint. cbv zeta.
  run_step. run_step. run_step.
  eapply runs_MakeRequest_fails; [exact Hfails |].
  intros w1 Hnet _ Hsent. run_step. run_step. run_step.
  apply HQ; [exact Hnet | exact Hsent].
Qed.

Lemma getGridpoint_decode_fails (latitude longitude : float64)
    (b : Body) (err : error) (n' : Net) (w : World)
    (Q : result (string * string) -> World -> Prop) :
  answers (weather.pointsURL latitude longitude) (net w) b n' ->
  Decode (T := weather.pointsResponse) b = Failure err ->
  (forall w',
      net w' = n' ->
      sent w' = sent w ++ [get (weather.pointsURL latitude longitude)] ->
      Q (Failure ("failed to decode NOAA points API response: " +:+ err)) w') ->
  runs (weather.getGridpoint latitude longitude) w Q.
Proof.
  intros Hanswers Hdecode HQ. unfold weather.getGridpoint. cbv zeta.
  run_step. run_step. run_step.
  eapply runs_MakeRequest_answers; [exact Hanswers |].
  rewrite Hdecode. run_step. run_step. run_step.
  apply HQ; reflexivity.
Qed.

End Chain_failures.

(** [X5] Step A fails. When the points request fails, or its body does not
    decode, the fetch returns the error of [getGridpoint] as it is, with the
    one prefix [getGridpoint] gave it, and asks the upstream nothing more. *)
Theorem gridpoint_failure_stops_the_chain
    {P : Platform}
    {D_points : JSONDecode P weather.pointsResponse}
    {D_stations : JSONDecode P weather.stationsResponse}
    {D_observation : JSONDecode P weather.observationResponse}
    (latitude longitude : float64) (w : World) (err : error) (n1 : Net) :
  (request_fails (weather.pointsURL latitude longitude) (net w) err n1 ->
   exists w',
     weather.GetWeatherFromNOAA latitude longitude w
       = (Returns (Failure ("failed to get gridpoint from NOAA points API: "
                            +:+ err)), w') /\
     net w' = n1 /\
     (sent w' = sent w \/
      sent w' = sent w ++ [get (weather.pointsURL latitude longitude)])) /\
  (forall b,
      answers (weather.pointsURL latitude longitude) (net w) b n1 ->
      Decode (T := weather.pointsResponse) b = Failure err ->
      exists w',
        weather.GetWeatherFromNOAA latitude longitude w
          = (Returns (Failure ("failed to decode NOAA points API response: "
                               +:+ err)), w') /\
        net w' = n1 /\
        sent w' = sent w ++ [get (weather.pointsURL latitude longitude)]).
Proof.
  split.
  - intros Hfails. apply runs_result.
    unfold weather.GetWeatherFromNOAA. cbv zeta.
    run_step. run_step. run_step.
    eapply getGridpoint_request_fails; [exact Hfails |].
    intros w1 Hnet Hsent. run_step. split; [reflexivity |].
    split; [exact Hnet | exact Hsent].
  - intros b Hanswers Hdecode. apply runs_result.
    unfold weather.GetWeatherFromNOAA. cbv zeta.
    run_step. run_step. run_step.
    eapply getGridpoint_decode_fails; [exact Hanswers | exact Hdecode |].
    intros w1 Hnet Hsent. run_step. split; [reflexivity |].
    split; [exact Hnet | exact Hsent].
Qed.

(** [X6] Step B fails. When the stations request fails, or its body does not
    decode, the fetch returns the error under the prefix of step B; the
    observation is never requested. *)
Theorem stations_failure_stops_the_chain
    {P : Platform}
    {D_points : JSONDecode P weather.pointsResponse}
    {D_stations : JSONDecode P weather.stationsResponse}
    {D_observation : JSONDecode P weather.observationResponse}
    (latitude longitude : float64) (w : World)
    (pr : weather.pointsResponse) (n1 : Net) (err : error) (n2 : Net) :
  stepA latitude longitude (net w) pr n1 ->
  (request_fails (weather.ObservationStations (weather.points_Properties pr))
     n1 err n2 ->
   exists w',
     weather.GetWeatherFromNOAA latitude longitude w
       = (Returns (Failure ("failed to get observation stations: " +:+ err)), w') /\
     net w' = n2 /\
     (sent w' = sent w ++ [get (weather.pointsURL latitude longitude)] \/
      sent w' = sent w ++
        [get (weather.pointsURL latitude longitude);
         get (weather.ObservationStations (weather.points_Properties pr))])) /\
  (forall b,
      answers (weather.ObservationStations (weather.points_Properties pr)) n1 b n2 ->
      Decode (T := weather.stationsResponse) b = Failure err ->
      exists w',
        weather.GetWeatherFromNOAA latitude longitude w
          = (Returns (Failure ("failed to decode stations response: " +:+ err)), w') /\
        net w' = n2 /\
        sent w' = sent w ++
          [get (weather.pointsURL latitude longitude);
           get (weather.ObservationStations (weather.points_Properties pr))]).
Proof.
  intros HA. split.
  - intros Hfails. apply runs_result.
    unfold weather.GetWeatherFromNOAA. cbv zeta.
    run_step. run_step. run_step.
    eapply getGridpoint_stepA; [exact HA |]. intros w1 Hnet1 Hsent1.
    run_step. eapply runs_MakeRequest_fails; [rewrite Hnet1; exact Hfails |].
    intros w2 Hnet2 _ Hsent2. run_step. run_step. run_step.
    split; [reflexivity |]. split; [exact Hnet2 |]. cbn [sent].
    destruct Hsent2 as [-> | ->]; rewrite Hsent1;
      [left; reflexivity | right; rewrite <- app_assoc; reflexivity].
  - intros b Hanswers Hdecode. apply runs_result.
    unfold weather.GetWeatherFromNOAA. cbv zeta.
    run_step. run_step. run_step.
    eapply getGridpoint_stepA; [exact HA |]. intros w1 Hnet1 Hsent1.
    run_step. eapply runs_MakeRequest_answers; [rewrite Hnet1; exact Hanswers |].
    rewrite Hdecode. run_step. run_step. run_step.
    split; [reflexivity |]. split; [reflexivity |]. cbn [sent].
    rewrite Hsent1, <- app_assoc. reflexivity.
Qed.

(** [X7] Step C fails. When the observation request fails, or its body does not
    decode, the fetch returns the error under the prefix of step C. The
    request went to the first station of the list, whatever follows it. *)
Theorem observation_failure_is_reported
    {P : Platform}
    {D_points : JSONDecode P weather.pointsResponse}
    {D_stations : JSONDecode P weather.stationsResponse}
    {D_observation : JSONDecode P weather.observationResponse}
    (latitude longitude : float64) (w : World)
    (pr : weather.pointsResponse) (n1 : Net)
    (sr : weather.stationsResponse) (n2 : Net)
    (first : weather.stationFeature) (rest : list weather.stationFeature)
    (err : error) (n3 : Net) :
  stepA latitude longitude (net w) pr n1 ->
  stepB pr n1 sr n2 ->
  weather.Features sr = first :: rest ->
  (request_fails
     (weather.observationURL
        (weather.StationIdentifier (weather.station_Properties first)))
     n2 err n3 ->
   exists w',
     weather.GetWeatherFromNOAA latitude longitude w
       = (Returns (Failure ("failed to get current observations from NOAA: "
                            +:+ err)), w') /\
     net w' = n3) /\
  (forall b,
      answers
        (weather.observationURL
           (weather.StationIdentifier (weather.station_Properties first)))
        n2 b n3 ->
      Decode (T := weather.observationResponse) b = Failure err ->
      exists w',
        weather.GetWeatherFromNOAA latitude longitude w
          = (Returns (Failure ("failed to decode NOAA observations response: "
                               +:+ err)), w') /\
        net w' = n3 /\
        sent w' = sent w ++
          [get (weather.pointsURL latitude longitude);
           get (weather.ObservationStations (weather.points_Properties pr));
           get (weather.observationURL
                  (weather.StationIdentifier (weather.station_Properties first)))]).
Proof.
  intros HA (b2 & Hanswers2 & Hdecode2) Hfeatures. split.
  - intros Hfails. apply runs_result.
    unfold weather.GetWeatherFromNOAA. cbv zeta.
    run_step. run_step. run_step.
    eapply getGridpoint_stepA; [exact HA |]. intros w1 Hnet1 Hsent1.
    run_step. eapply runs_MakeRequest_answers; [rewrite Hnet1; exact Hanswers2 |].
    rewrite Hdecode2, Hfeatures. cbn [length Nat.eqb].
    run_step. eapply runs_index; [reflexivity |].
    run_step. run_step. run_step.
    eapply runs_MakeRequest_fails; [exact Hfails |].
    intros w3 Hnet3 _ _. run_step. run_step. run_step.
    split; [reflexivity | exact Hnet3].
  - intros b3 Hanswers3 Hdecode3. apply runs_result.
    run_three_steps HA Hanswers2 Hdecode2 Hfeatures Hanswers3 Hdecode3.
    run_step. run_step. run_step.
    split; [reflexivity |]. split; [reflexivity |]. cbn [sent].
    rewrite Hsent1, <- !app_assoc. reflexivity.
Qed.

(** The scripted upstream answers, or fails, as its table says. *)
Section Script_facts.
Context (table : list (string * Script.answer)).

Lemma Script_answers (url status : string) (b : Mock.body) (n : nat) :
  Script.has_space (Script.host (Script.after_scheme url)) = false ->
  Script.lookup table url = Some (Script.Answer 200 status b) ->
  answers (P := Script.platform table) url n b (S n).
Proof.
  intros Hspace Hlookup. split.
  - unfold url_error; cbn [Script.platform]. rewrite Hspace. reflexivity.
  - exists {| http.StatusCode := 200; http.Status := status; http.RespBody := b |}.
    split; [| split; reflexivity].
    unfold client_Do; cbn [Script.platform]. unfold Script.serve.
    change (http.creq_URL (get url)) with url. rewrite Hlookup. reflexivity.
Qed.

Lemma Script_request_fails (url : string) (n : nat) (err : error) :
  Script.has_space (Script.host (Script.after_scheme url)) = false ->
  match Script.lookup table url with
  | Some (Script.Answer code status _) =>
    code <> 200%Z /\
    err = "API returned status: " +:+ strconv.Itoa code +:+ " " +:+ status
  | Some (Script.Broken e) => err = "failed to make request: " +:+ e
  | None => err = "failed to make request: dial tcp: connection refused"
  end ->
  request_fails (P := Script.platform table) url n err (S n).
Proof.
  intros Hspace Hlookup.
  set (w := @Build_World (Script.platform table) n [] []).
  destruct (MakeRequest_cases (P := Script.platform table) url weather.userAgent w)
    as [(e & Hurl & _) | (_ & x & n' & Hdo & Hcase)].
  { unfold url_error in Hurl; cbn [Script.platform] in Hurl.
    rewrite Hspace in Hurl. discriminate Hurl. }
  unfold client_Do in Hdo; cbn [Script.platform] in Hdo. unfold Script.serve in Hdo.
  change (http.creq_URL (httpclient.request url weather.userAgent)) with url in Hdo.
  exists w. eexists. split; [reflexivity |]. split; [rewrite Hcase |].
  - destruct (Script.lookup table url) as [[code status b | e] |];
      injection Hdo as <- <-.
    + destruct Hlookup as [Hcode ->]. cbn [http.StatusCode http.Status].
      destruct (Z.eqb_spec code 200); [contradiction | reflexivity].
    + rewrite Hlookup. reflexivity.
    + rewrite Hlookup. reflexivity.
  - cbn [net].
    destruct (Script.lookup table url) as [[code status b | e] |];
      injection Hdo as <- <-; reflexivity.
Qed.

End Script_facts.

Lemma MakeRequest_body_only_on_200_witness :
  exists req resp,
    well_formed "probe/1.0" req /\
    http.creq_URL req = Script.pointsURL /\
    client_Do (Platform := Script.platform
                 [(Script.pointsURL, Script.ok (Mock.Points Mock.points))])
      req O
      = (Success resp, 1%nat) /\
    http.StatusCode resp = 200%Z /\
    http.RespBody resp = Mock.Points Mock.points.
Proof.
  set (table := [(Script.pointsURL, Script.ok (Mock.Points Mock.points))]).
  destruct (MakeRequest_body_only_on_200
              (P := Script.platform table) Script.pointsURL "probe/1.0"
              (Script.boot table)
              (@Build_World (Script.platform table) 1%nat
                 [httpclient.request Script.pointsURL "probe/1.0"] [])
              (Mock.Points Mock.points) eq_refl)
    as (req & resp & Hwf & Hurl & Hdo & Hcode & Hbody & _).
  exists req, resp. repeat split; try assumption; apply Hwf.
Defined.

Lemma MakeRequest_rejects_other_statuses_witness :
  fst (httpclient.MakeRequest (P := Mock.platform [] None)
         "https://api.weather.gov/alerts" "probe/1.0" (Mock.boot [] None))
    = Returns (Failure "API returned status: 404 404 Not Found").
Proof.
  rewrite (MakeRequest_rejects_other_statuses
             (P := Mock.platform [] None)
             "https://api.weather.gov/alerts" "probe/1.0" (Mock.boot [] None)
             {| http.StatusCode := 404; http.Status := "404 Not Found";
                http.RespBody := Mock.Text "Not Found" |} 1%nat).
  - reflexivity.
  - reflexivity.
  - reflexivity.
  - discriminate.
Defined.

Lemma MakeRequest_wraps_early_failures_witness :
  fst (httpclient.MakeRequest (P := Script.platform [])
         "https://api.weather .gov/points/38.9728,-94.7120" "probe/1.0"
         (Script.boot []))
    = Returns (Failure ("failed to create request: "
                        +:+ "net/url: invalid character in host name")) /\
  fst (httpclient.MakeRequest (P := Script.platform [])
         Script.pointsURL "probe/1.0" (Script.boot []))
    = Returns (Failure ("failed to make request: "
                        +:+ "dial tcp: connection refused")).
Proof.
  split.
  - destruct (MakeRequest_wraps_early_failures
                (P := Script.platform [])
                "https://api.weather .gov/points/38.9728,-94.7120" "probe/1.0"
                (Script.boot []) "net/url: invalid character in host name")
      as (Hcreate & _).
    rewrite Hcreate; reflexivity.
  - destruct (MakeRequest_wraps_early_failures
                (P := Script.platform [])
                Script.pointsURL "probe/1.0"
                (Script.boot []) "dial tcp: connection refused")
      as (_ & Hmake).
    rewrite (Hmake 1%nat); reflexivity.
Defined.

Lemma MakeRequest_depends_on_the_network_only_witness :
  exists r n' reqs,
    httpclient.MakeRequest (P := Script.platform [])
      Script.pointsURL "probe/1.0" (Script.boot [])
      = (Returns r, @Build_World (Script.platform []) n' reqs []) /\
    httpclient.MakeRequest (P := Script.platform [])
      Script.pointsURL "probe/1.0"
      (@Build_World (Script.platform []) O [get Script.observationURL] [])
      = (Returns r, @Build_World (Script.platform []) n'
                      (get Script.observationURL :: reqs) []).
Proof.
  destruct (MakeRequest_depends_on_the_network_only
              (P := Script.platform []) Script.pointsURL "probe/1.0"
              (Script.boot [])
              (@Build_World (Script.platform []) O [get Script.observationURL] [])
              eq_refl)
    as (r & n' & reqs & _ & Hrun1 & Hrun2).
  exists r, n', reqs. split; [exact Hrun1 | exact Hrun2].
Defined.

Lemma Script_pointsURL :
  weather.pointsURL Mock.latitude Mock.longitude = Script.pointsURL.
Proof. vm_compute. reflexivity. Qed.

Lemma Script_stepA (table : list (string * Script.answer)) (n : nat) :
  Script.lookup table Script.pointsURL
    = Some (Script.ok (Mock.Points Mock.points)) ->
  stepA (P := Script.platform table) Mock.latitude Mock.longitude n
    Mock.points (S n).
Proof.
  intros Hlookup. exists (Mock.Points Mock.points). split; [| reflexivity].
  rewrite Script_pointsURL.
  apply (Script_answers table Script.pointsURL "200 OK");
    [vm_compute; reflexivity | exact Hlookup].
Qed.

Lemma Script_stepB (table : list (string * Script.answer)) (n : nat) :
  Script.lookup table Mock.stationsURL = Some (Script.ok Script.stations) ->
  stepB (P := Script.platform table) Mock.points n
    {| weather.Features := [Mock.station "KIXD"; Mock.station "KOJC"] |} (S n).
Proof.
  intros Hlookup. exists Script.stations. split; [| reflexivity].
  apply (Script_answers table Mock.stationsURL "200 OK");
    [vm_compute; reflexivity | exact Hlookup].
Qed.

Lemma gridpoint_failure_stops_the_chain_witness :
  exists w',
    weather.GetWeatherFromNOAA (P := Script.platform [])
      Mock.latitude Mock.longitude (Script.boot [])
      = (Returns (Failure ("failed to get gridpoint from NOAA points API: "
                           +:+ "failed to make request: dial tcp: connection refused")),
         w') /\
    net w' = 1%nat.
Proof.
  destruct (gridpoint_failure_stops_the_chain
              (P := Script.platform []) Mock.latitude Mock.longitude
              (Script.boot [])
              "failed to make request: dial tcp: connection refused" 1%nat)
    as (Hrequest & _).
  destruct Hrequest as (w' & Hrun & Hnet & _).
  - apply Script_request_fails; [vm_compute; reflexivity | reflexivity].
  - exists w'. split; [exact Hrun | exact Hnet].
Defined.

Lemma stations_failure_stops_the_chain_witness :
  exists w',
    weather.GetWeatherFromNOAA
      (P := Script.platform
              [(Script.pointsURL, Script.ok (Mock.Points Mock.points));
               (Mock.stationsURL,
                Script.Answer 503 "503 Service Unavailable" (Mock.Text ""))])
      Mock.latitude Mock.longitude (Script.boot _)
      = (Returns (Failure ("failed to get observation stations: "
                           +:+ "API returned status: 503 503 Service Unavailable")),
         w') /\
    net w' = 2%nat.
Proof.
  set (table := [(Script.pointsURL, Script.ok (Mock.Points Mock.points));
                 (Mock.stationsURL,
                  Script.Answer 503 "503 Service Unavailable" (Mock.Text ""))]).
  destruct (stations_failure_stops_the_chain
              (P := Script.platform table) Mock.latitude Mock.longitude
              (Script.boot table) Mock.points 1%nat
              "API returned status: 503 503 Service Unavailable" 2%nat
              (Script_stepA table O eq_refl))
    as (Hrequest & _).
  destruct Hrequest as (w' & Hrun & Hnet & _).
  - apply Script_request_fails; [vm_compute; reflexivity |].
    vm_compute. split; [discriminate | reflexivity].
  - exists w'. split; [exact Hrun | exact Hnet].
Defined.

Lemma observation_failure_is_reported_witness :
  exists w',
    weather.GetWeatherFromNOAA
      (P := Script.platform
              [(Script.pointsURL, Script.ok (Mock.Points Mock.points));
               (Mock.stationsURL, Script.ok Script.stations);
               (Script.observationURL, Script.ok (Mock.Text "<html>"))])
      Mock.latitude Mock.longitude (Script.boot _)
      = (Returns (Failure ("failed to decode NOAA observations response: "
                           +:+ "json: cannot unmarshal")),
         w') /\
    net w' = 3%nat.
Proof.
  set (table := [(Script.pointsURL, Script.ok (Mock.Points Mock.points));
                 (Mock.stationsURL, Script.ok Script.stations);
                 (Script.observationURL, Script.ok (Mock.Text "<html>"))]).
  destruct (observation_failure_is_reported
              (P := Script.platform table) Mock.latitude Mock.longitude
              (Script.boot table) Mock.points 1%nat
              {| weather.Features := [Mock.station "KIXD"; Mock.station "KOJC"] |}
              2%nat (Mock.station "KIXD") [Mock.station "KOJC"]
              "json: cannot unmarshal" 3%nat
              (Script_stepA table O eq_refl) (Script_stepB table 1 eq_refl) eq_refl)
    as (_ & Hdecode).
  destruct (Hdecode (Mock.Text "<html>")) as (w' & Hrun & Hnet & _).
  - apply (Script_answers table Script.observationURL "200 OK");
      [vm_compute; reflexivity | reflexivity].
  - reflexivity.
  - exists w'. split; [exact Hrun | exact Hnet].
Defined.

(** ** Every run of the fetch *)

Section Every_run.
Context {P : Platform}.
Context {D_points : JSONDecode P weather.pointsResponse}.
Context {D_stations : JSONDecode P weather.stationsResponse}.
Context {D_observation : JSONDecode P weather.observationResponse}.

Lemma asked_refl (k : nat) (w w' : World) : sent w' = sent w -> asked k w w'.
Proof.
  intros Hsent. exists []. rewrite app_nil_r.
  split; [exact Hsent |]. split; [cbn; lia | constructor].
Qed.

Lemma asked_step (k : nat) (w w1 w2 : World) (url : string) :
  asked k w w1 ->
  sent w2 = sent w1 \/ sent w2 = sent w1 ++ [get url] ->
  asked (S k) w w2.
Proof.
  intros (reqs & Hsent & Hlen & Hall) [Hsame | Hmore].
  - exists reqs. rewrite Hsame. split; [exact Hsent |]. split; [lia | exact Hall].
  - exists (reqs ++ [get url]). rewrite Hmore, Hsent, app_assoc.
    split; [reflexivity |]. split; [rewrite List.length_app; cbn; lia |].
    apply Forall_app. split; [exact Hall |].
    constructor; [exists url; reflexivity | constructor].
Qed.

Lemma asked_weaken (k k' : nat) (w w' : World) :
  (k <= k')%nat -> asked k w w' -> asked k' w w'.
Proof.
  intros Hle (reqs & Hsent & Hlen & Hall). exists reqs.
  split; [exact Hsent |]. split; [lia | exact Hall].
Qed.

(** The last line of a log that was just written to. *)
Ltac last_entry :=
  cbn [stdout];
  unfold Logger.InfoWithFields, Logger.ErrorWithFields, Logger.WarnWithFields,
    Logger.DebugWithFields;
  rewrite !log_written;
  eexists; reflexivity.

(** A line written at level warn or error, with fields that encode when
    the coordinates are finite, is the last line of a failure. *)
Lemma written_failure_line (latitude longitude : float64)
    (level : Logger.LogLevel) (message : string)
    (fields : gmap string Logger.value) :
  level = Logger.LevelWarn \/ level = Logger.LevelError ->
  message <> "Successfully retrieved current weather data" ->
  (finite latitude = true -> finite longitude = true ->
   map_Forall (fun _ v => Logger.encodes v = true) fields) ->
  failure_line latitude longitude (written level message fields).
Proof.
  intros Hlevel Hmessage Hfields. unfold failure_line.
  rewrite written_message. split; [exact Hmessage |].
  destruct (finite latitude) eqn:Hlat, (finite longitude) eqn:Hlon; cbn [andb];
    try (destruct (written_level level message fields) as [-> | ->];
         cbn [line_level Logger.Level]; [exact Hlevel | reflexivity]).
  rewrite written_Json by (apply Hfields; reflexivity).
  exact Hlevel.
Qed.

(** A failure line of the fetch: warn or error, fields as the tactic
    [all_encode] can check. *)
Ltac failure_logged :=
  apply written_failure_line;
  [first [left; reflexivity | right; reflexivity]
  | discriminate
  | intros ? ?; all_encode].

Lemma getGridpoint_every_run (latitude longitude : float64) (w : World) :
  runs (weather.getGridpoint latitude longitude) w
    (fun r w' =>
       match r with
       | Success (gridId, url) =>
         exists pr,
           stepA latitude longitude (net w) pr (net w') /\
           gridId = weather.GridId (weather.points_Properties pr) /\
           url = weather.ObservationStations (weather.points_Properties pr) /\
           sent w' = sent w ++ [get (weather.pointsURL latitude longitude)]
       | Failure _ =>
         (exists ln, logged_last ln w' /\ failure_line latitude longitude ln) /\
         (sent w' = sent w \/
          sent w' = sent w ++ [get (weather.pointsURL latitude longitude)])
       end).
Proof.
  unfold weather.getGridpoint. cbv zeta.
  run_step. run_step. run_step.
  apply runs_MakeRequest_split.
  - intros b n' Hanswers.
    destruct (Decode (T := weather.pointsResponse) b) as [pr | err] eqn:Hdecode.
    + run_step. run_step. run_step.
      exists pr. split; [exists b; split; assumption |].
      repeat split; reflexivity.
    + run_step. run_step. run_step.
      split; [eexists; split; [last_entry | failure_logged] |].
      right. reflexivity.
  - intros err w' _ _ Hsent. run_step. run_step. run_step.
    split; [eexists; split; [last_entry | failure_logged] |]. exact Hsent.
Qed.

(** Every way the fetch can end: at most three requests, all built by
    [MakeRequest] with the service's user agent; a failure leaves the line
    of a failure last in the log; a success comes with the three steps
    answered, a reading that is not null, the three requests in order and
    the line of a success last in the log. *)
Lemma GetWeatherFromNOAA_every_run (latitude longitude : float64) (w : World) :
  runs (weather.GetWeatherFromNOAA latitude longitude) w
    (fun r w' =>
       asked 3 w w' /\
       match r with
       | Success (status, temp) =>
         exists pr n1 sr n2 first rest obs tempC,
           stepA latitude longitude (net w) pr n1 /\
           stepB pr n1 sr n2 /\
           weather.Features sr = first :: rest /\
           stepC first n2 obs (net w') /\
           reading obs = Some tempC /\
           status = weather.determineStatus (fahrenheit tempC) /\
           temp = strconv.FormatFloat (fahrenheit tempC) 1 +:+ weather.degreesF /\
           sent w' = sent w ++
             [get (weather.pointsURL latitude longitude);
              get (weather.ObservationStations (weather.points_Properties pr));
              get (weather.observationURL
                     (weather.StationIdentifier (weather.station_Properties first)))] /\
           exists ln,
             logged_last ln w' /\ success_line latitude longitude tempC ln
       | Failure _ =>
         exists ln, logged_last ln w' /\ failure_line latitude longitude ln
       end).
Proof.
  unfold weather.GetWeatherFromNOAA. cbv zeta.
  run_step. run_step. run_step.
  eapply runs_weaken; [apply getGridpoint_every_run |].
  cbn [net sent]. intros g w1 Hg.
  destruct g as [[gridId url] | err].
  2: { destruct Hg as [(ln & Hlast & Hline) Hsent]. run_step.
       split.
       - apply (asked_weaken 1); [lia |].
         apply (asked_step 0 w w _ (weather.pointsURL latitude longitude));
           [apply asked_refl; reflexivity | exact Hsent].
       - exists ln. split; [exact Hlast | exact Hline]. }
  destruct Hg as (pr & HA & -> & -> & Hsent1).
  assert (Hasked1 : asked 1 w w1).
  { apply (asked_step 0 w w _ (weather.pointsURL latitude longitude));
      [apply asked_refl; reflexivity | right; exact Hsent1]. }
  run_step. apply runs_MakeRequest_split.
  2: { intros err w2 _ _ Hsent2. run_step. run_step. run_step.
       split.
       - apply (asked_weaken 2); [lia |]. eapply asked_step; [exact Hasked1 |].
         cbn [sent]. exact Hsent2.
       - eexists. split; [last_entry | failure_logged]. }
  intros b2 n2 Hanswers2.
  assert (Hasked2 : forall w2 : World,
             sent w2 = sent w1 ++
               [get (weather.ObservationStations (weather.points_Properties pr))] ->
             asked 2 w w2).
  { intros w2 Hsent2. eapply asked_step; [exact Hasked1 | right; exact Hsent2]. }
  destruct (Decode (T := weather.stationsResponse) b2) as [sr | err] eqn:Hdecode2.
  2: { run_step. run_step. run_step.
       split; [apply (asked_weaken 2); [lia |]; apply Hasked2; reflexivity |].
       eexists. split; [last_entry | failure_logged]. }
  destruct (weather.Features sr) as [| first rest] eqn:Hfeatures.
  { cbn [length Nat.eqb]. run_step. run_step. run_step.
    split; [apply (asked_weaken 2); [lia |]; apply Hasked2; reflexivity |].
    eexists. split; [last_entry | failure_logged]. }
  cbn [length Nat.eqb]. run_step. eapply runs_index; [reflexivity |].
  assert (Hasked3 : forall w3 : World,
             sent w3 = (sent w1 ++
               [get (weather.ObservationStations (weather.points_Properties pr))]) ++
               [get (weather.observationURL
                       (weather.StationIdentifier (weather.station_Properties first)))] ->
             asked 3 w w3).
  { intros w3 Hsent3.
    destruct (Hasked2 {| net := net w3;
                         sent := sent w1 ++
                           [get (weather.ObservationStations
                                   (weather.points_Properties pr))];
                         stdout := stdout w3 |} eq_refl)
      as (reqs & Hreqs & Hlen & Hall).
    cbn [sent] in Hreqs.
    exists (reqs ++ [get (weather.observationURL
                            (weather.StationIdentifier
                               (weather.station_Properties first)))]).
    rewrite Hsent3, Hreqs, app_assoc.
    split; [reflexivity |]. split; [rewrite List.length_app; cbn; lia |].
    apply Forall_app. split; [exact Hall |].
    constructor; [eexists; reflexivity | constructor]. }
  run_step. run_step. run_step. apply runs_MakeRequest_split.
  2: { intros err w3 _ _ Hsent3. run_step. run_step. run_step.
       split.
       - cbn [sent] in *. destruct Hsent3 as [Hs | Hs].
         + apply (asked_weaken 2); [lia |]. apply Hasked2. exact Hs.
         + apply Hasked3. exact Hs.
       - eexists. split; [last_entry | failure_logged]. }
  intros b3 n3 Hanswers3. cbn [net] in Hanswers3.
  destruct (Decode (T := weather.observationResponse) b3) as [obs | err] eqn:Hdecode3.
  2: { run_step. run_step. run_step.
       split; [apply Hasked3; reflexivity |].
       eexists. split; [last_entry | failure_logged]. }
  destruct (weather.Value _) as [tempC |] eqn:Hvalue; cbn [is_nil].
  2: { run_step. run_step. run_step.
       split; [apply Hasked3; reflexivity |].
       eexists. split; [last_entry | failure_logged]. }
  run_step. eapply runs_deref; [reflexivity |].
  run_step. run_step. run_step.
  split; [apply Hasked3; reflexivity |].
  exists pr, (net w1), sr, n2, first, rest, obs, tempC.
  split; [exact HA |].
  split; [exists b2; split; assumption |].
  split; [exact Hfeatures |].
  split; [exists b3; split; assumption |].
  split; [exact Hvalue |].
  split; [reflexivity |]. split; [reflexivity |].
  split; [cbn [sent]; rewrite Hsent1, <- !app_assoc; reflexivity |].
  eexists. split; [last_entry |].
  unfold success_line. rewrite written_message. split; [reflexivity |].
  fold (fahrenheit tempC). generalize (fahrenheit tempC) as tempF. intros tempF.
  destruct (finite latitude) eqn:Hlat, (finite longitude) eqn:Hlon,
    (finite tempC) eqn:HtempC, (finite tempF) eqn:HtempF; cbn [andb];
    try (match goal with
         | |- context [written ?level ?message ?fields] =>
           destruct (written_level level message fields) as [-> | ->]
         end; cbn [line_level Logger.Level]; reflexivity).
  rewrite written_Json by all_encode. reflexivity.
Qed.

End Every_run.

(** [X8] A fetch that succeeds has been through all three steps: the upstream
    answered 200 to each request with a body that decoded, the station list
    was not empty, the reading of its first station was not null; status and
    text are those of that reading; and exactly the three requests went
    out, in order. *)
Theorem success_needs_the_three_answers
    {P : Platform}
    {D_points : JSONDecode P weather.pointsResponse}
    {D_stations : JSONDecode P weather.stationsResponse}
    {D_observation : JSONDecode P weather.observationResponse}
    (latitude longitude : float64) (w w' : World) (status temp : string) :
  weather.GetWeatherFromNOAA latitude longitude w
    = (Returns (Success (status, temp)), w') ->
  exists pr n1 sr n2 first rest obs tempC,
    stepA latitude longitude (net w) pr n1 /\
    stepB pr n1 sr n2 /\
    weather.Features sr = first :: rest /\
    stepC first n2 obs (net w') /\
    reading obs = Some tempC /\
    status = weather.determineStatus (fahrenheit tempC) /\
    temp = strconv.FormatFloat (fahrenheit tempC) 1 +:+ weather.degreesF /\
    sent w' = sent w ++
      [get (weather.pointsURL latitude longitude);
       get (weather.ObservationStations (weather.points_Properties pr));
       get (weather.observationURL
              (weather.StationIdentifier (weather.station_Properties first)))].
Proof.
  intros Hrun.
  pose proof (runs_inv _ _ _ _ _
                (GetWeatherFromNOAA_every_run latitude longitude w) Hrun)
    as (_ & pr & n1 & sr & n2 & first & rest & obs & tempC & HA & HB & Hfeatures
        & HC & Hreading & Hstatus & Htemp & Hsent & _).
  exists pr, n1, sr, n2, first, rest, obs, tempC.
  repeat split; assumption.
Qed.

Lemma success_needs_the_three_answers_witness :
  exists pr n1 sr first rest obs tempC,
    weather.Features sr = first :: rest /\
    reading obs = Some tempC /\
    stepA (P := Mock.platform ["KIXD"] (Some (F64.of_Z 22)))
      Mock.latitude Mock.longitude O pr n1 /\
    "moderate" = weather.determineStatus (fahrenheit tempC).
Proof.
  destruct (success_needs_the_three_answers
              (P := Mock.platform ["KIXD"] (Some (F64.of_Z 22)))
              Mock.latitude Mock.longitude (Mock.boot ["KIXD"] (Some (F64.of_Z 22)))
              (snd (Mock.GetWeatherFromNOAA ["KIXD"] (Some (F64.of_Z 22))))
              "moderate" ("71.6" +:+ weather.degreesF))
    as (pr & n1 & sr & n2 & first & rest & obs & tempC & HA & HB & Hfeatures
        & HC & Hreading & Hstatus & _).
  - apply (run_by_outcome (Mock.GetWeatherFromNOAA ["KIXD"] (Some (F64.of_Z 22)))).
    vm_compute. reflexivity.
  - exists pr, n1, sr, first, rest, obs, tempC. repeat split; assumption.
Defined.

(** [X9] How a fetch ends shows in the last line of its log. After a failure
    the line does not carry the message of a success, and its level is warn
    or error; after a success it carries that message, at level info. The
    line is the logger's fallback, which keeps the message but has no level,
    only when a value it should record is not finite: a coordinate, or for
    a success also the reading or its Fahrenheit value. *)
Theorem the_outcome_is_logged_last
    {P : Platform}
    {D_points : JSONDecode P weather.pointsResponse}
    {D_stations : JSONDecode P weather.stationsResponse}
    {D_observation : JSONDecode P weather.observationResponse}
    (latitude longitude : float64) (w w' : World)
    (r : result (string * string)) :
  weather.GetWeatherFromNOAA latitude longitude w = (Returns r, w') ->
  exists older ln,
    stdout w' = older ++ [ln] /\
    match r with
    | Failure _ =>
      line_message ln <> "Successfully retrieved current weather data" /\
      match line_level ln with
      | Some level =>
        level = Logger.LevelWarn \/ level = Logger.LevelError
      | None => finite latitude && finite longitude = false
      end
    | Success (status, temp) =>
      line_message ln = "Successfully retrieved current weather data" /\
      exists tempC,
        temp = strconv.FormatFloat (fahrenheit tempC) 1 +:+ weather.degreesF /\
        match line_level ln with
        | Some level => level = Logger.LevelInfo
        | None =>
          finite latitude && finite longitude
          && finite tempC && finite (fahrenheit tempC) = false
        end
    end.
Proof.
  intros Hrun.
  pose proof (runs_inv _ _ _ _ _
                (GetWeatherFromNOAA_every_run latitude longitude w) Hrun)
    as (_ & Hr).
  destruct r as [[status temp] | err].
  - destruct Hr as (pr & n1 & sr & n2 & first & rest & obs & tempC & _ & _ & _
                    & _ & _ & _ & Htemp & _ & ln & (older & Hlast)
                    & Hmessage & Hlevel).
    exists older, ln. split; [exact Hlast |]. split; [exact Hmessage |].
    exists tempC. split; [exact Htemp | exact Hlevel].
  - destruct Hr as (ln & (older & Hlast) & Hline).
    exists older, ln. split; [exact Hlast | exact Hline].
Qed.

Lemma the_outcome_is_logged_last_witness :
  exists older ln,
    stdout (snd (Mock.GetWeatherFromNOAA [] None)) = older ++ [ln] /\
    (line_level ln = Some Logger.LevelWarn \/
     line_level ln = Some Logger.LevelError).
Proof.
  destruct (the_outcome_is_logged_last
              (P := Mock.platform [] None)
              Mock.latitude Mock.longitude (Mock.boot [] None)
              (snd (Mock.GetWeatherFromNOAA [] None))
              (Failure "no observation stations available"))
    as (older & ln & Hlast & _ & Hlevel).
  - apply (run_by_outcome (Mock.GetWeatherFromNOAA [] None)).
    vm_compute. reflexivity.
  - exists older, ln. split; [exact Hlast |].
    destruct (line_level ln) as [level |].
    + destruct Hlevel as [-> | ->]; [left | right]; reflexivity.
    + vm_compute in Hlevel. discriminate Hlevel.
Defined.

(** [X10] Whatever the upstream does, a fetch returns, having sent at most three
    requests, each a GET that carries the service's user agent and accepts
    JSON; and it only adds to the log, starting with its first line: the
    entry that records the coordinates when both are finite, the logger's
    fallback line with the same message when one is NaN or infinite. *)
Theorem a_fetch_sends_at_most_three_requests
    {P : Platform}
    {D_points : JSONDecode P weather.pointsResponse}
    {D_stations : JSONDecode P weather.stationsResponse}
    {D_observation : JSONDecode P weather.observationResponse}
    (latitude longitude : float64) (w : World) :
  exists r w' reqs lines,
    weather.GetWeatherFromNOAA latitude longitude w = (Returns r, w') /\
    sent w' = sent w ++ reqs /\
    (length reqs <= 3)%nat /\
    Forall (well_formed weather.userAgent) reqs /\
    stdout w' = stdout w ++ fetching latitude longitude :: lines.
Proof.
  destruct (GetWeatherFromNOAA_every_run latitude longitude w)
    as (r & w' & Hrun & (reqs & Hsent & Hlen & Hall) & _).
  destruct (runs_inv _ _ _ _ _ (GetWeatherFromNOAA_runs latitude longitude w) Hrun)
    as ((lines & Hlog) & _).
  exists r, w', reqs, lines.
  split; [exact Hrun |]. split; [exact Hsent |]. split; [exact Hlen |].
  split; [| exact Hlog].
  eapply Forall_impl; [| exact Hall].
  intros req (url & ->). apply request_well_formed.
Qed.

(** ** The order of the classification *)

(** Case analysis on the comparisons of signs, exponents and mantissas. *)
Ltac order_cases :=
  repeat match goal with
         | H : context [Pos.compare_cont Eq ?a ?b] |- _ =>
           change (Pos.compare_cont Eq a b) with (Pos.compare a b) in H
         | |- context [Pos.compare_cont Eq ?a ?b] =>
           change (Pos.compare_cont Eq a b) with (Pos.compare a b)
         end;
  repeat match goal with
         | H : context [Z.compare ?a ?b] |- _ =>
           destruct (Z.compare_spec a b); try discriminate H
         | |- context [Z.compare ?a ?b] => destruct (Z.compare_spec a b)
         | H : context [Pos.compare ?a ?b] |- _ =>
           destruct (Pos.compare_spec a b); try discriminate H
         | |- context [Pos.compare ?a ?b] => destruct (Pos.compare_spec a b)
         end;
  subst; simpl in *; try reflexivity; try discriminate; try lia.

Lemma SFltb_leb_trans (x y z : float64) :
  SFltb x y = true -> SFleb y z = true -> SFltb x z = true.
Proof.
  unfold SFltb, SFleb.
  destruct x as [sx|sx| |sx mx ex], y as [sy|sy| |sy my ey], z as [sz|sz| |sz mz ez];
    simpl; try discriminate; try reflexivity;
    try (destruct sx; simpl; try discriminate; try reflexivity);
    try (destruct sy; simpl; try discriminate; try reflexivity);
    try (destruct sz; simpl; try discriminate; try reflexivity);
    intros H1 H2; order_cases.
Qed.

Lemma SFleb_ltb_trans (x y z : float64) :
  SFleb x y = true -> SFltb y z = true -> SFltb x z = true.
Proof.
  unfold SFltb, SFleb.
  destruct x as [sx|sx| |sx mx ex], y as [sy|sy| |sy my ey], z as [sz|sz| |sz mz ez];
    simpl; try discriminate; try reflexivity;
    try (destruct sx; simpl; try discriminate; try reflexivity);
    try (destruct sy; simpl; try discriminate; try reflexivity);
    try (destruct sz; simpl; try discriminate; try reflexivity);
    intros H1 H2; order_cases.
Qed.

(** [X11] The classification is monotone: of two temperatures, the one that is
    not lower never gets the colder status. *)
Theorem determineStatus_monotone (a b : float64) :
  F64.leb a b = true ->
  (rank (weather.determineStatus a) <= rank (weather.determineStatus b))%nat.
Proof.
  intros Hle. unfold weather.determineStatus.
  destruct (F64.gtb a (F64.of_Z 75)) eqn:Ha_hot.
  - assert (Hb_hot : F64.gtb b (F64.of_Z 75) = true)
      by exact (SFltb_leb_trans _ _ _ Ha_hot Hle).
    rewrite Hb_hot. apply le_n.
  - destruct (F64.ltb a (F64.of_Z 50)) eqn:Ha_cold.
    + cbn. lia.
    + destruct (F64.gtb b (F64.of_Z 75)); [cbn; lia |].
      destruct (F64.ltb b (F64.of_Z 50)) eqn:Hb_cold; [| apply le_n].
      assert (Hcold : F64.ltb a (F64.of_Z 50) = true)
        by exact (SFleb_ltb_trans _ _ _ Hle Hb_cold).
      congruence.
Qed.

Lemma determineStatus_monotone_witness :
  (rank (weather.determineStatus (F64.of_ratio 499 10))
   <= rank (weather.determineStatus (F64.of_Z 50)))%nat.
Proof.
  apply determineStatus_monotone. vm_compute. reflexivity.
Defined.

(** [X12] The text of a successful fetch is a number followed by the unit
    literal of the source; the number has one or more digits, a point and
    exactly one decimal, after an optional minus sign, unless the Fahrenheit
    value is not finite, and then it is "NaN", "+Inf" or "-Inf". *)
Theorem fetched_text_is_number_then_unit
    {P : Platform}
    {D_points : JSONDecode P weather.pointsResponse}
    {D_stations : JSONDecode P weather.stationsResponse}
    {D_observation : JSONDecode P weather.observationResponse}
    (latitude longitude : float64) (w w' : World) (status temp : string) :
  weather.GetWeatherFromNOAA latitude longitude w
    = (Returns (Success (status, temp)), w') ->
  exists tempC number,
    number = strconv.FormatFloat (fahrenheit tempC) 1 /\
    temp = number +:+ weather.degreesF /\
    (one_decimal number = true \/
     number = "NaN" \/ number = "+Inf" \/ number = "-Inf").
Proof.
  intros Hrun.
  destruct (runs_inv _ _ _ _ _ (GetWeatherFromNOAA_runs latitude longitude w) Hrun)
    as (_ & tempC & _ & Htemp).
  exists tempC, (strconv.FormatFloat (fahrenheit tempC) 1).
  split; [reflexivity |]. split; [exact Htemp |].
  apply FormatFloat_one_decimal.
Qed.

Lemma fetched_text_is_number_then_unit_witness :
  exists tempC number,
    number = strconv.FormatFloat (fahrenheit tempC) 1 /\
    "71.6" +:+ weather.degreesF = number +:+ weather.degreesF /\
    (one_decimal number = true \/
     number = "NaN" \/ number = "+Inf" \/ number = "-Inf").
Proof.
  apply (fetched_text_is_number_then_unit
           (P := Mock.platform ["KIXD"] (Some (F64.of_Z 22)))
           Mock.latitude Mock.longitude (Mock.boot ["KIXD"] (Some (F64.of_Z 22)))
           (snd (Mock.GetWeatherFromNOAA ["KIXD"] (Some (F64.of_Z 22))))
           "moderate" ("71.6" +:+ weather.degreesF)).
  apply (run_by_outcome (Mock.GetWeatherFromNOAA ["KIXD"] (Some (F64.of_Z 22)))).
  vm_compute. reflexivity.
Defined.

(** ** Every run of the handler *)

Section Every_request.
Context {P : Platform}.
Context {D_points : JSONDecode P weather.pointsResponse}.
Context {D_stations : JSONDecode P weather.stationsResponse}.
Context {D_observation : JSONDecode P weather.observationResponse}.

(** The log of a world that was written to starts as [received] says. *)
Ltac log_starts :=
  cbn [stdout] in *;
  unfold Logger.InfoWithFields, Logger.ErrorWithFields, Logger.WarnWithFields,
    Logger.DebugWithFields in *;
  rewrite ?log_written, ?written_incoming in *;
  repeat match goal with
         | H : stdout _ = _ |- _ => rewrite H; clear H
         end;
  rewrite <- ?app_assoc; eexists; reflexivity.

(** Every request is either turned down, by one of the six rejections and
    before anything is sent, or it has passed all checks and the reply is
    that of the fetch for its coordinates. *)
Lemma WeatherHandler_every_run (r : http.Request) (w : World) :
  runs (api.WeatherHandler r) w
    (fun reply w' =>
       (exists l, stdout w' = stdout w ++ incoming r :: l) /\
       ((no_upstream_call w w' /\ In reply rejections) \/
        (exists latitude longitude res w2,
            parsed r latitude longitude /\
            in_range latitude longitude /\
            weather.GetWeatherFromNOAA latitude longitude (received r w)
              = (Returns res, w2) /\
            sent w' = sent w2 /\ net w' = net w2 /\
            reply = reply_of res))).
Proof.
  unfold api.WeatherHandler. cbv zeta.
  run_step. run_step.
  destruct (String.eqb (http.Method r) http.MethodGet) eqn:Hmethod; cbn [negb].
  2: { run_step. run_step. run_step. split; [log_starts |].
       left. split; [split; reflexivity |]. cbn. tauto. }
  apply String.eqb_eq in Hmethod.
  destruct (String.eqb (http.Get (http.URL_Query r) "latitude") ""
            || String.eqb (http.Get (http.URL_Query r) "longitude") "") eqn:Hempty.
  { run_step. run_step. run_step. split; [log_starts |].
    left. split; [split; reflexivity |]. cbn. tauto. }
  apply orb_false_elim in Hempty as [Hlat Hlon].
  apply String.eqb_neq in Hlat, Hlon.
  destruct (ParseFloat (http.Get (http.URL_Query r) "latitude"))
    as [latitude | err] eqn:Hplat.
  2: { run_step. run_step. run_step. split; [log_starts |].
       left. split; [split; reflexivity |]. cbn. tauto. }
  destruct (ParseFloat (http.Get (http.URL_Query r) "longitude"))
    as [longitude | err] eqn:Hplon.
  2: { run_step. run_step. run_step. split; [log_starts |].
       left. split; [split; reflexivity |]. cbn. tauto. }
  destruct (F64.ltb latitude (F64.of_Z (-90)) || F64.gtb latitude (F64.of_Z 90))
    eqn:Hclat.
  { run_step. run_step. run_step. split; [log_starts |].
    left. split; [split; reflexivity |]. cbn. tauto. }
  destruct (F64.ltb longitude (F64.of_Z (-180)) || F64.gtb longitude (F64.of_Z 180))
    eqn:Hclon.
  { run_step. run_step. run_step. split; [log_starts |].
    left. split; [split; reflexivity |]. cbn. tauto. }
  apply orb_false_elim in Hclat as [Hlat1 Hlat2].
  apply orb_false_elim in Hclon as [Hlon1 Hlon2].
  run_step.
  destruct (GetWeatherFromNOAA_runs latitude longitude (received r w))
    as (res & w2 & Hrun & _).
  exists res, w2. split; [exact Hrun |].
  assert (Hgrows : exists l, stdout w2 = stdout w ++ incoming r :: l).
  { destruct (runs_inv _ _ _ _ _
                (GetWeatherFromNOAA_runs latitude longitude (received r w)) Hrun)
      as ((l & Hlog) & _).
    rewrite Hlog. cbn [received stdout]. rewrite <- app_assoc.
    eexists. reflexivity. }
  destruct Hgrows as [l Hw2].
  destruct res as [[status temp] | err]; cbv zeta.
  - run_step. run_step. run_step.
    split.
    + cbn [stdout]. unfold Logger.InfoWithFields.
      rewrite log_written, Hw2, <- app_assoc. eexists. reflexivity.
    + right. exists latitude, longitude, (Success (status, temp)), w2.
      repeat split; assumption.
  - run_step. run_step. run_step.
    split.
    + cbn [stdout]. unfold Logger.ErrorWithFields.
      rewrite log_written, Hw2, <- app_assoc. eexists. reflexivity.
    + right. exists latitude, longitude, (Failure err), w2.
      repeat split; assumption.
Qed.

End Every_request.

(** The handler, from its first line to the call of the fetch, for a request
    that passes every check. *)
Ltac run_validated Hparsed Hrange :=
  let Hget := fresh "Hget" in
  let Hlat := fresh "Hlat" in
  let Hlon := fresh "Hlon" in
  let Hplat := fresh "Hplat" in
  let Hplon := fresh "Hplon" in
  let H1 := fresh "Hrange1" in
  let H2 := fresh "Hrange2" in
  let H3 := fresh "Hrange3" in
  let H4 := fresh "Hrange4" in
  destruct Hparsed as (Hget & Hlat & Hlon & Hplat & Hplon);
  destruct Hrange as (H1 & H2 & H3 & H4);
  unfold api.WeatherHandler; cbv zeta;
  run_step; run_step;
  rewrite Hget;
  change (negb (http.MethodGet =? http.MethodGet)%string) with false;
  cbv iota;
  rewrite (proj2 (String.eqb_neq _ _) Hlat), (proj2 (String.eqb_neq _ _) Hlon);
  cbn [orb]; rewrite Hplat, Hplon, H1, H2, H3, H4; cbn [orb];
  run_step.

(** [X13] A GET request that lacks a parameter, or carries it empty, is answered
    400 "latitude and longitude query parameters are required" before
    anything is parsed or sent. *)
Theorem missing_parameter_is_rejected
    {P : Platform}
    {D_points : JSONDecode P weather.pointsResponse}
    {D_stations : JSONDecode P weather.stationsResponse}
    {D_observation : JSONDecode P weather.observationResponse}
    (r : http.Request) (w : World) :
  http.Method r = "GET" ->
  http.Get (http.URL_Query r) "latitude" = "" \/
  http.Get (http.URL_Query r) "longitude" = "" ->
  exists w',
    api.WeatherHandler r w
      = (Returns (api.http_Error
                    "latitude and longitude query parameters are required" 400),
         w') /\
    no_upstream_call w w'.
Proof.
  intros Hmethod Hmissing. apply runs_result.
  unfold api.WeatherHandler. cbv zeta. run_step. run_step.
  rewrite Hmethod.
  change (negb ("GET" =? http.MethodGet)%string) with false. cbv iota.
  replace (String.eqb (http.Get (http.URL_Query r) "latitude") ""
           || String.eqb (http.Get (http.URL_Query r) "longitude") "")
    with true
    by (destruct Hmissing as [-> | ->]; [| rewrite orb_true_r]; reflexivity).
  run_step. run_step. run_step.
  split; [reflexivity | split; reflexivity].
Qed.

Lemma missing_parameter_is_rejected_witness :
  exists w',
    Mock.WeatherHandler ["KIXD"] (Some (F64.of_Z 22))
      (Mock.request "GET" "38.9728" "")
      = (Returns (api.http_Error
                    "latitude and longitude query parameters are required" 400),
         w') /\
    sent w' = [].
Proof.
  destruct (missing_parameter_is_rejected
              (P := Mock.platform ["KIXD"] (Some (F64.of_Z 22)))
              (Mock.request "GET" "38.9728" "")
              (Mock.boot ["KIXD"] (Some (F64.of_Z 22))))
    as (w' & Hrun & Hsent & _).
  - reflexivity.
  - right. vm_compute. reflexivity.
  - exists w'. split; [exact Hrun | exact Hsent].
Defined.

(** [X14] A parameter that does not parse is answered 400 before any range check
    and before anything is sent: "invalid latitude parameter" whatever the
    longitude is, "invalid longitude parameter" whatever value the latitude
    parsed to. *)
Theorem unparsable_parameter_is_rejected
    {P : Platform}
    {D_points : JSONDecode P weather.pointsResponse}
    {D_stations : JSONDecode P weather.stationsResponse}
    {D_observation : JSONDecode P weather.observationResponse}
    (r : http.Request) (w : World) :
  http.Method r = "GET" ->
  http.Get (http.URL_Query r) "latitude" <> "" ->
  http.Get (http.URL_Query r) "longitude" <> "" ->
  (forall err,
      ParseFloat (http.Get (http.URL_Query r) "latitude") = Failure err ->
      exists w',
        api.WeatherHandler r w
          = (Returns (api.http_Error "invalid latitude parameter" 400), w') /\
        no_upstream_call w w') /\
  (forall latitude err,
      ParseFloat (http.Get (http.URL_Query r) "latitude") = Success latitude ->
      ParseFloat (http.Get (http.URL_Query r) "longitude") = Failure err ->
      exists w',
        api.WeatherHandler r w
          = (Returns (api.http_Error "invalid longitude parameter" 400), w') /\
        no_upstream_call w w').
Proof.
  intros Hmethod Hlat Hlon.
  split.
  - intros err Hplat. apply runs_result.
    unfold api.WeatherHandler. cbv zeta. run_step. run_step.
    rewrite Hmethod.
    change (negb ("GET" =? http.MethodGet)%string) with false. cbv iota.
    rewrite (proj2 (String.eqb_neq _ _) Hlat), (proj2 (String.eqb_neq _ _) Hlon).
    cbn [orb]. rewrite Hplat. run_step. run_step. run_step.
    split; [reflexivity | split; reflexivity].
  - intros latitude err Hplat Hplon. apply runs_result.
    unfold api.WeatherHandler. cbv zeta. run_step. run_step.
    rewrite Hmethod.
    change (negb ("GET" =? http.MethodGet)%string) with false. cbv iota.
    rewrite (proj2 (String.eqb_neq _ _) Hlat), (proj2 (String.eqb_neq _ _) Hlon).
    cbn [orb]. rewrite Hplat, Hplon. run_step. run_step. run_step.
    split; [reflexivity | split; reflexivity].
Qed.

Lemma unparsable_parameter_is_rejected_witness :
  (exists w',
      Mock.WeatherHandler ["KIXD"] (Some (F64.of_Z 22))
        (Mock.request "GET" "north" "east")
        = (Returns (api.http_Error "invalid latitude parameter" 400), w') /\
      sent w' = []) /\
  (exists w',
      Mock.WeatherHandler ["KIXD"] (Some (F64.of_Z 22))
        (Mock.request "GET" "91" "1e")
        = (Returns (api.http_Error "invalid longitude parameter" 400), w') /\
      sent w' = []).
Proof.
  split.
  - destruct (unparsable_parameter_is_rejected
                (P := Mock.platform ["KIXD"] (Some (F64.of_Z 22)))
                (Mock.request "GET" "north" "east")
                (Mock.boot ["KIXD"] (Some (F64.of_Z 22))))
      as (Hlatitude & _).
    + reflexivity.
    + vm_compute. discriminate.
    + vm_compute. discriminate.
    + edestruct Hlatitude as (w' & Hrun & Hsent & _);
        [vm_compute; reflexivity |].
      exists w'. split; [exact Hrun | exact Hsent].
  - destruct (unparsable_parameter_is_rejected
                (P := Mock.platform ["KIXD"] (Some (F64.of_Z 22)))
                (Mock.request "GET" "91" "1e")
                (Mock.boot ["KIXD"] (Some (F64.of_Z 22))))
      as (_ & Hlongitude).
    + reflexivity.
    + vm_compute. discriminate.
    + vm_compute. discriminate.
    + edestruct Hlongitude as (w' & Hrun & Hsent & _);
        [vm_compute; reflexivity | vm_compute; reflexivity |].
      exists w'. split; [exact Hrun | exact Hsent].
Defined.

(** [X15] The upstream is asked only for a request that has passed every check:
    if a request was sent, the method was GET, both parameters were present
    and parsed, and the coordinates passed the four comparisons. And a
    request that is turned down has caused no upstream call. *)
Theorem upstream_only_after_validation
    {P : Platform}
    {D_points : JSONDecode P weather.pointsResponse}
    {D_stations : JSONDecode P weather.stationsResponse}
    {D_observation : JSONDecode P weather.observationResponse}
    (r : http.Request) (w w' : World) (reply : api.reply) :
  api.WeatherHandler r w = (Returns reply, w') ->
  (sent w' <> sent w ->
   exists latitude longitude,
     parsed r latitude longitude /\ in_range latitude longitude) /\
  (In reply rejections -> no_upstream_call w w').
Proof.
  intros Hrun.
  destruct (runs_inv _ _ _ _ _ (WeatherHandler_every_run r w) Hrun)
    as (_ & [(Hnone & Hin) | (latitude & longitude & res & w2 & Hparsed & Hrange
                               & _ & _ & _ & Hreply)]).
  - split; [| intros _; exact Hnone].
    intros Hsent. destruct Hnone as [Hsame _]. contradiction.
  - split; [intros _; exists latitude, longitude; split; assumption |].
    intros Hin. exfalso. rewrite Hreply in Hin. unfold rejections in Hin.
    destruct res as [[status temp] | err]; cbn [reply_of In] in Hin;
      repeat (destruct Hin as [Hin | Hin]; [discriminate Hin |]); exact Hin.
Qed.

Lemma upstream_only_after_validation_witness :
  exists latitude longitude,
    parsed (P := Mock.platform [] None)
      (Mock.request "GET" "38.9728" "-94.712") latitude longitude /\
    in_range latitude longitude.
Proof.
  destruct (upstream_only_after_validation
              (P := Mock.platform [] None)
              (Mock.request "GET" "38.9728" "-94.712") (Mock.boot [] None)
              (snd (Mock.WeatherHandler [] None (Mock.request "GET" "38.9728" "-94.712")))
              (api.http_Error "Failed to fetch weather data" 500))
    as (Hsent & _).
  - apply (run_by_outcome
             (Mock.WeatherHandler [] None (Mock.request "GET" "38.9728" "-94.712"))).
    vm_compute. reflexivity.
  - apply Hsent. intros Heq. apply (f_equal (@length _)) in Heq.
    vm_compute in Heq. discriminate Heq.
Defined.

(** [X16] Every request is answered, whatever the upstream does: by one of the six
    rejections, by 500 "Failed to fetch weather data", or by the JSON reply
    with its two headers and one of the three statuses. The log is only
    added to, starting with the line that records the request. *)
Theorem every_request_is_answered
    {P : Platform}
    {D_points : JSONDecode P weather.pointsResponse}
    {D_stations : JSONDecode P weather.stationsResponse}
    {D_observation : JSONDecode P weather.observationResponse}
    (r : http.Request) (w : World) :
  exists reply w' lines,
    api.WeatherHandler r w = (Returns reply, w') /\
    stdout w' = stdout w ++ incoming r :: lines /\
    (In reply rejections \/
     reply = api.http_Error "Failed to fetch weather data" 500 \/
     exists status temp,
       reply = api.json_Encode json_headers
                 {| api.Status := status; api.Temp := temp |} /\
       (status = "hot" \/ status = "cold" \/ status = "moderate")).
Proof.
  destruct (WeatherHandler_every_run r w)
    as (reply & w' & Hrun & (lines & Hlog) & Hcases).
  exists reply, w', lines. split; [exact Hrun |]. split; [exact Hlog |].
  destruct Hcases as [(_ & Hin) | (latitude & longitude & res & w2 & _ & _
                                   & Hfetch & _ & _ & ->)].
  - left. exact Hin.
  - right. destruct res as [[status temp] | err]; [right | left; reflexivity].
    exists status, temp. split; [reflexivity |].
    destruct (runs_inv _ _ _ _ _
                (GetWeatherFromNOAA_runs latitude longitude (received r w)) Hfetch)
      as (_ & tempC & -> & _).
    apply determineStatus_cases.
Qed.

(** [X17] For a request that passes every check the reply is that of the fetch:
    the JSON reply carries the status and the text the fetch returned; any
    failure of the fetch becomes the same 500, and its message goes to the
    log, not into the reply. The handler itself sends nothing and logs one
    more line: with finite coordinates the entry at level error that holds
    the message of the failure, or the entry at level info that holds the
    status; with a NaN coordinate, which the range checks let through, the
    logger's fallback line, which has neither level nor fields. *)
Theorem reply_follows_the_fetch
    {P : Platform}
    {D_points : JSONDecode P weather.pointsResponse}
    {D_stations : JSONDecode P weather.stationsResponse}
    {D_observation : JSONDecode P weather.observationResponse}
    (r : http.Request) (w w2 : World) (latitude longitude : float64)
    (res : result (string * string)) :
  parsed r latitude longitude ->
  in_range latitude longitude ->
  weather.GetWeatherFromNOAA latitude longitude (received r w) = (Returns res, w2) ->
  exists w' ln,
    api.WeatherHandler r w = (Returns (reply_of res), w') /\
    sent w' = sent w2 /\ net w' = net w2 /\
    stdout w' = stdout w2 ++ [ln] /\
    match res with
    | Failure err =>
      if finite latitude && finite longitude then
        exists entry,
          ln = Logger.Json entry /\
          Logger.Level entry = Logger.LevelError /\
          Logger.Message entry = "Error fetching weather" /\
          Logger.Fields entry !! "error" = Some (Logger.VString err)
      else ln = Logger.Fallback "Error fetching weather"
    | Success (status, temp) =>
      if finite latitude && finite longitude then
        exists entry,
          ln = Logger.Json entry /\
          Logger.Level entry = Logger.LevelInfo /\
          Logger.Message entry = "Weather request successful" /\
          Logger.Fields entry !! "status" = Some (Logger.VString status)
      else ln = Logger.Fallback "Weather request successful"
    end.
Proof.
  intros Hparsed Hrange Hfetch.
  cut (runs (api.WeatherHandler r) w
         (fun reply w' =>
            reply = reply_of res /\
            exists ln,
              sent w' = sent w2 /\ net w' = net w2 /\
              stdout w' = stdout w2 ++ [ln] /\
              match res with
              | Failure err =>
                if finite latitude && finite longitude then
                  exists entry,
                    ln = Logger.Json entry /\
                    Logger.Level entry = Logger.LevelError /\
                    Logger.Message entry = "Error fetching weather" /\
                    Logger.Fields entry !! "error" = Some (Logger.VString err)
                else ln = Logger.Fallback "Error fetching weather"
              | Success (status, temp) =>
                if finite latitude && finite longitude then
                  exists entry,
                    ln = Logger.Json entry /\
                    Logger.Level entry = Logger.LevelInfo /\
                    Logger.Message entry = "Weather request successful" /\
                    Logger.Fields entry !! "status" = Some (Logger.VString status)
                else ln = Logger.Fallback "Weather request successful"
              end)).
  { intros (reply & w' & Hrun & -> & ln & Hrest).
    exists w', ln. split; [exact Hrun | exact Hrest]. }
  run_validated Hparsed Hrange.
  unfold received, incoming in Hfetch. rewrite Hget in Hfetch.
  exists res, w2. split; [exact Hfetch |].
  destruct res as [[status temp] | err]; cbv zeta.
  - run_step. run_step. run_step. split; [reflexivity |].
    cbn [stdout sent net]. unfold Logger.InfoWithFields. rewrite log_written.
    eexists. split; [reflexivity |]. split; [reflexivity |].
    split; [reflexivity |].
    destruct (finite latitude) eqn:Hflat; cbn [andb];
      [| apply (written_Fallback _ _ _ "latitude" (Logger.VFloat latitude));
         [apply lookup_insert_eq | exact Hflat]].
    destruct (finite longitude) eqn:Hflon;
      [| apply (written_Fallback _ _ _ "longitude" (Logger.VFloat longitude));
         [rewrite !lookup_insert_ne by discriminate; apply lookup_insert_eq
         | exact Hflon]].
    rewrite written_Json by all_encode.
    eexists. split; [reflexivity |]. cbn [Logger.Level Logger.Message Logger.Fields].
    split; [reflexivity |]. split; [reflexivity |].
    rewrite !lookup_insert_ne by discriminate. apply lookup_insert_eq.
  - run_step. run_step. run_step. split; [reflexivity |].
    cbn [stdout sent net]. unfold Logger.ErrorWithFields. rewrite log_written.
    eexists. split; [reflexivity |]. split; [reflexivity |].
    split; [reflexivity |].
    destruct (finite latitude) eqn:Hflat; cbn [andb];
      [| apply (written_Fallback _ _ _ "latitude" (Logger.VFloat latitude));
         [rewrite !lookup_insert_ne by discriminate; apply lookup_insert_eq
         | exact Hflat]].
    destruct (finite longitude) eqn:Hflon;
      [| apply (written_Fallback _ _ _ "longitude" (Logger.VFloat longitude));
         [rewrite !lookup_insert_ne by discriminate; apply lookup_singleton_eq
         | exact Hflon]].
    rewrite written_Json by all_encode.
    eexists. split; [reflexivity |]. cbn [Logger.Level Logger.Message Logger.Fields].
    split; [reflexivity |]. split; [reflexivity |].
    apply lookup_insert_eq.
Qed.

Lemma Mock_in_range : in_range Mock.latitude Mock.longitude.
Proof. vm_compute. repeat split. Qed.

Lemma reply_follows_the_fetch_witness :
  exists w',
    Mock.WeatherHandler [] None (Mock.request "GET" "38.9728" "-94.712")
      = (Returns (api.http_Error "Failed to fetch weather data" 500), w').
Proof.
  destruct (reply_follows_the_fetch
              (P := Mock.platform [] None)
              (Mock.request "GET" "38.9728" "-94.712") (Mock.boot [] None)
              (snd (weather.GetWeatherFromNOAA (P := Mock.platform [] None)
                      Mock.latitude Mock.longitude
                      (received (Mock.request "GET" "38.9728" "-94.712")
                                (Mock.boot [] None))))
              Mock.latitude Mock.longitude
              (Failure "no observation stations available"))
    as (w' & entry & Hrun & _).
  - apply Mock_parsed; vm_compute; reflexivity.
  - exact Mock_in_range.
  - apply run_by_outcome. vm_compute. reflexivity.
  - exists w'. exact Hrun.
Defined.

(** [X18] From the request to the reply: for a request that passes every check,
    against an upstream that answers the three steps with a reading, the
    handler replies with the JSON headers, the status of the reading in
    Fahrenheit and its text, after exactly the three requests. *)
Theorem end_to_end_reply
    {P : Platform}
    {D_points : JSONDecode P weather.pointsResponse}
    {D_stations : JSONDecode P weather.stationsResponse}
    {D_observation : JSONDecode P weather.observationResponse}
    (r : http.Request) (w : World) (latitude longitude : float64)
    (pr : weather.pointsResponse) (n1 : Net)
    (sr : weather.stationsResponse) (n2 : Net)
    (first : weather.stationFeature) (rest : list weather.stationFeature)
    (obs : weather.observationResponse) (n3 : Net) (tempC : float64) :
  parsed r latitude longitude ->
  in_range latitude longitude ->
  stepA latitude longitude (net w) pr n1 ->
  stepB pr n1 sr n2 ->
  weather.Features sr = first :: rest ->
  stepC first n2 obs n3 ->
  reading obs = Some tempC ->
  exists w',
    api.WeatherHandler r w
      = (Returns (api.json_Encode json_headers
                    {| api.Status := weather.determineStatus (fahrenheit tempC);
                       api.Temp := strconv.FormatFloat (fahrenheit tempC) 1
                                   +:+ weather.degreesF |}), w') /\
    net w' = n3 /\
    sent w' = sent w ++
      [get (weather.pointsURL latitude longitude);
       get (weather.ObservationStations (weather.points_Properties pr));
       get (weather.observationURL
              (weather.StationIdentifier (weather.station_Properties first)))].
Proof.
  intros Hparsed Hrange HA (b2 & Hanswers2 & Hdecode2) Hfeatures
    (b3 & Hanswers3 & Hdecode3) Hsome.
  apply runs_result.
  run_validated Hparsed Hrange.
  run_three_steps HA Hanswers2 Hdecode2 Hfeatures Hanswers3 Hdecode3.
  unfold reading in Hsome. rewrite Hsome. cbn [is_nil].
  run_step. eapply runs_deref; [reflexivity |].
  fold (fahrenheit tempC).
  run_step. run_step. run_step.
  run_step. run_step. run_step.
  split; [reflexivity |]. split; [reflexivity |]. cbn [sent].
  rewrite Hsent1, <- !app_assoc. reflexivity.
Qed.

Lemma end_to_end_reply_witness :
  exists w',
    Mock.WeatherHandler ["KIXD"] (Some (F64.of_Z 22))
      (Mock.request "GET" "38.9728" "-94.712")
      = (Returns (api.json_Encode json_headers
                    {| api.Status := "moderate";
                       api.Temp := "71.6" +:+ weather.degreesF |}), w') /\
    net w' = 3%nat.
Proof.
  destruct (end_to_end_reply
              (P := Mock.platform ["KIXD"] (Some (F64.of_Z 22)))
              (Mock.request "GET" "38.9728" "-94.712")
              (Mock.boot ["KIXD"] (Some (F64.of_Z 22)))
              Mock.latitude Mock.longitude
              Mock.points 1%nat
              {| weather.Features := [Mock.station "KIXD"] |} 2%nat
              (Mock.station "KIXD") [] (Mock.observation (Some (F64.of_Z 22)))
              3%nat (F64.of_Z 22))
    as (w' & Hrun & Hnet & _).
  - apply Mock_parsed; vm_compute; reflexivity.
  - exact Mock_in_range.
  - apply Mock_stepA.
  - apply Mock_stepB.
  - reflexivity.
  - apply Mock_stepC.
  - reflexivity.
  - exists w'. split; [| exact Hnet].
    unfold Mock.WeatherHandler. rewrite Hrun.
    apply (f_equal (fun x => (Returns (api.json_Encode json_headers x), w'))).
    vm_compute. reflexivity.
Defined.

(** ** What reaches the upstream *)

Section First_request.
Context {P : Platform}.
Context {D_points : JSONDecode P weather.pointsResponse}.
Context {D_stations : JSONDecode P weather.stationsResponse}.
Context {D_observation : JSONDecode P weather.observationResponse}.

(** Whatever a fetch sends starts with the points request of its
    coordinates. *)
Lemma GetWeatherFromNOAA_first_request (latitude longitude : float64) (w : World) :
  runs (weather.GetWeatherFromNOAA latitude longitude) w
    (fun _ w' =>
       sent w' = sent w \/
       exists rest,
         sent w' = sent w ++ get (weather.pointsURL latitude longitude) :: rest).
Proof.
  unfold weather.GetWeatherFromNOAA. cbv zeta.
  run_step. run_step. run_step.
  eapply runs_weaken; [apply getGridpoint_every_run |].
  cbn [net sent]. intros g w1 Hg.
  destruct g as [[gridId url] | err].
  2: { destruct Hg as [_ [Hsent | Hsent]]; run_step;
         [left; exact Hsent | right; exists []; exact Hsent]. }
  destruct Hg as (pr & _ & -> & -> & Hsent1).
  assert (Hgrows : forall (w' : World) (l : list http.ClientRequest),
             sent w' = sent w1 ++ l ->
             sent w' = sent w \/
             exists rest,
               sent w' = sent w ++ get (weather.pointsURL latitude longitude) :: rest).
  { intros w' l Hsent. right. exists l.
    rewrite Hsent, Hsent1, <- app_assoc. reflexivity. }
  run_step. apply runs_MakeRequest_split.
  2: { intros err w2 _ _ Hsent2. run_step. run_step. run_step.
       cbn [sent]. destruct Hsent2 as [Hs | Hs].
       - apply (Hgrows _ []). cbn [sent]. rewrite app_nil_r. exact Hs.
       - eapply Hgrows. cbn [sent]. exact Hs. }
  intros b2 n2 _.
  destruct (Decode (T := weather.stationsResponse) b2) as [sr | err].
  2: { run_step. run_step. run_step. eapply Hgrows. reflexivity. }
  destruct (weather.Features sr) as [| first rest] eqn:Hfeatures.
  { cbn [length Nat.eqb]. run_step. run_step. run_step.
    eapply Hgrows. reflexivity. }
  cbn [length Nat.eqb]. run_step. eapply runs_index; [reflexivity |].
  run_step. run_step. run_step. apply runs_MakeRequest_split.
  2: { intros err w3 _ _ Hsent3. run_step. run_step. run_step.
       cbn [sent] in *. destruct Hsent3 as [Hs | Hs].
       - eapply Hgrows. cbn [sent]. exact Hs.
       - eapply Hgrows. cbn [sent]. rewrite Hs, <- app_assoc. reflexivity. }
  intros b3 n3 _.
  destruct (Decode (T := weather.observationResponse) b3) as [obs | err].
  2: { run_step. run_step. run_step.
       eapply Hgrows. cbn [sent]. rewrite <- app_assoc. reflexivity. }
  destruct (weather.Value _) as [tempC |] eqn:Hvalue; cbn [is_nil].
  2: { run_step. run_step. run_step.
       eapply Hgrows. cbn [sent]. rewrite <- app_assoc. reflexivity. }
  run_step. eapply runs_deref; [reflexivity |].
  run_step. run_step. run_step.
  eapply Hgrows. cbn [sent]. rewrite <- app_assoc. reflexivity.
Qed.

End First_request.

Lemma SFcompare_None (x y : float64) :
  SFcompare x y = None -> x = F64.nan \/ y = F64.nan.
Proof.
  destruct x as [sx|sx| |sx mx ex], y as [sy|sy| |sy my ey];
    try (intros _; left; reflexivity);
    try (intros _; right; reflexivity);
    cbv beta iota delta [SFcompare];
    try (destruct sx; discriminate);
    try (destruct sy; discriminate);
    try (destruct sx, sy; discriminate).
Qed.

(** Unless one side is NaN, what is not below is at or above. *)
Lemma not_ltb_leb (x y : float64) :
  x <> F64.nan -> y <> F64.nan -> F64.ltb x y = false -> F64.leb y x = true.
Proof.
  intros Hx Hy. unfold F64.ltb, F64.leb, SFltb, SFleb.
  rewrite (SFcompare_antisym x y).
  destruct (SFcompare x y) as [[] |] eqn:Hcompare.
  - reflexivity.
  - discriminate.
  - reflexivity.
  - destruct (SFcompare_None x y Hcompare); contradiction.
Qed.

Lemma within_bounds (c : Z) (x : float64) :
  F64.of_Z c <> F64.nan ->
  F64.of_Z (- c) <> F64.nan ->
  F64.ltb x (F64.of_Z (- c)) = false ->
  F64.gtb x (F64.of_Z c) = false ->
  x = F64.nan \/
  F64.leb (F64.of_Z (- c)) x = true /\ F64.leb x (F64.of_Z c) = true.
Proof.
  intros Hc Hmc Hlow Hhigh.
  destruct (SFcompare x x) as [o |] eqn:Hself.
  - right.
    assert (Hx : x <> F64.nan) by (intros ->; discriminate Hself).
    split; [apply not_ltb_leb; assumption |].
    apply not_ltb_leb; [exact Hc | exact Hx | exact Hhigh].
  - left. destruct (SFcompare_None x x Hself); assumption.
Qed.

(** [X19] A request that causes an upstream call has two parameters that
    parse, each within its bounds, ends included, or NaN: latitude from -90
    to 90, longitude from -180 to 180. Nothing else passes, the infinities
    included. The first request sent is the points request of exactly these
    coordinates. *)
Theorem coordinates_sent_upstream_are_in_range_or_nan
    {P : Platform}
    {D_points : JSONDecode P weather.pointsResponse}
    {D_stations : JSONDecode P weather.stationsResponse}
    {D_observation : JSONDecode P weather.observationResponse}
    (r : http.Request) (w w' : World) (reply : api.reply) :
  api.WeatherHandler r w = (Returns reply, w') ->
  sent w' <> sent w ->
  exists latitude longitude,
    ParseFloat (http.Get (http.URL_Query r) "latitude") = Success latitude /\
    ParseFloat (http.Get (http.URL_Query r) "longitude") = Success longitude /\
    (latitude = F64.nan \/
     F64.leb (F64.of_Z (-90)) latitude = true /\
     F64.leb latitude (F64.of_Z 90) = true) /\
    (longitude = F64.nan \/
     F64.leb (F64.of_Z (-180)) longitude = true /\
     F64.leb longitude (F64.of_Z 180) = true) /\
    exists rest,
      sent w' = sent w ++ get (weather.pointsURL latitude longitude) :: rest.
Proof.
  intros Hrun Hsent.
  destruct (runs_inv _ _ _ _ _ (WeatherHandler_every_run r w) Hrun)
    as (_ & [((Hsame & _) & _) | (latitude & longitude & res & w2 & Hparsed
                                  & Hrange & Hfetch & Hsent2 & _ & _)]);
    [contradiction |].
  destruct Hparsed as (_ & _ & _ & Hplat & Hplon).
  destruct Hrange as (Hlat1 & Hlat2 & Hlon1 & Hlon2).
  exists latitude, longitude.
  split; [exact Hplat |]. split; [exact Hplon |].
  split; [apply (within_bounds 90); try assumption; vm_compute; discriminate |].
  split; [apply (within_bounds 180); try assumption; vm_compute; discriminate |].
  pose proof (runs_inv _ _ _ _ _
                (GetWeatherFromNOAA_first_request latitude longitude (received r w))
                Hfetch) as Hfirst.
  cbn [received sent] in Hfirst. rewrite <- Hsent2 in Hfirst.
  destruct Hfirst as [Hnone | Hfirst]; [contradiction | exact Hfirst].
Qed.

Lemma coordinates_sent_upstream_are_in_range_or_nan_witness :
  exists latitude longitude rest,
    F64.leb (F64.of_Z (-90)) latitude = true /\
    F64.leb longitude (F64.of_Z 180) = true /\
    sent (snd (Mock.WeatherHandler [] None (Mock.request "GET" "38.9728" "-94.712")))
      = get (weather.pointsURL latitude longitude) :: rest.
Proof.
  destruct (coordinates_sent_upstream_are_in_range_or_nan
              (P := Mock.platform [] None)
              (Mock.request "GET" "38.9728" "-94.712") (Mock.boot [] None)
              (snd (Mock.WeatherHandler [] None (Mock.request "GET" "38.9728" "-94.712")))
              (api.http_Error "Failed to fetch weather data" 500))
    as (latitude & longitude & Hplat & Hplon & Hlat & Hlon & rest & Hsent).
  - apply (run_by_outcome
             (Mock.WeatherHandler [] None (Mock.request "GET" "38.9728" "-94.712"))).
    vm_compute. reflexivity.
  - intros Heq. apply (f_equal (@length _)) in Heq.
    vm_compute in Heq. discriminate Heq.
  - exists latitude, longitude, rest.
    assert (Hlatitude : latitude <> F64.nan).
    { intros ->. vm_compute in Hplat. discriminate Hplat. }
    assert (Hlongitude : longitude <> F64.nan).
    { intros ->. vm_compute in Hplon. discriminate Hplon. }
    destruct Hlat as [Hlat | [Hlat _]]; [contradiction |].
    destruct Hlon as [Hlon | [_ Hlon]]; [contradiction |].
    split; [exact Hlat |]. split; [exact Hlon |]. exact Hsent.
Defined.
